(** * AI-Chatbot-Backend-API: the conversation store and the chat orchestration

    A shallow embedding of [src/memory.py] (class [ConversationMemory]),
    [src/agent.py] ([ChatAgent.run], [ChatAgent.astream], [get_agent]) and the
    two chat handlers of [src/main.py] ([chat], [chat_stream]).

    The SQLite database is a record of two tables; every method of
    [ConversationMemory] is a computation in a small state-and-exception monad
    over the process state.  What the program cannot decide by itself is a
    variable of the section: the wall clock behind [CURRENT_TIMESTAMP], the
    configured defaults, and the LangChain executor. *)

From Stdlib Require Import Ascii String ZArith QArith Lia.
From stdpp Require Import gmap strings list sorting.

Local Open Scope string_scope.
Local Open Scope list_scope.
Local Open Scope Z_scope.

(** ** Data model *)

(** [TIMESTAMP DEFAULT CURRENT_TIMESTAMP]: the text "YYYY-MM-DD HH:MM:SS" in
    UTC, one second of resolution.  Texts of this fixed format compare like
    the instants they denote, so a timestamp is the number of its second. *)
Definition Timestamp := Z.

#[local] Set Warnings "-register-all".

(** A JSON-serialisable Python value, as [json.dumps] accepts it. *)
Inductive Json :=
| JNull
| JBool (b : bool)
| JNum (n : Z)
| JStr (s : string)
| JList (l : list Json)
| JObj (kv : list (string * Json)).

(** [Dict[str, Any]].  The [metadata TEXT] columns hold [json.dumps] of such a
    dict and are read back with [json.loads]; a column is represented by the
    dict that its text encodes. *)
Definition Dict := list (string * Json).

(** A row of [sessions]; the key [session_id] is the key of the table. *)
Record SessionRow := {
  s_created_at : Timestamp;
  s_updated_at : Timestamp;
  s_metadata : Dict
}.

(** A row of [messages]. *)
Record MessageRow := {
  m_id : Z;
  m_session_id : string;
  m_role : string;
  m_content : string;
  m_timestamp : Timestamp;
  m_metadata : Dict
}.

(** The database file after [_init_database].  [sessions] has
    [session_id TEXT PRIMARY KEY]: a finite map.  [messages] is a rowid table
    ([id INTEGER PRIMARY KEY AUTOINCREMENT]): its rows are kept in rowid
    order, and [sqlite_sequence] is the largest id ever handed out, which
    AUTOINCREMENT never reuses. *)
Record Database := {
  sessions : gmap string SessionRow;
  messages : list MessageRow;
  sqlite_sequence : Z
}.

(** A connection as [sqlite3.connect(self.db_path)] returns it.  SQLite
    enforces foreign keys only on a connection that ran
    [PRAGMA foreign_keys = ON]; a fresh connection has it off. *)
Record Connection := {
  foreign_keys : bool
}.

Definition sqlite3_connect : Connection := {| foreign_keys := false |}.

(** [ChatAgent]: the fields [get_agent] and the handlers depend on.
    [a_instance] is the identity of the object (its construction number). *)
Record ChatAgent := {
  a_instance : nat;
  a_temperature : Q;
  a_max_tokens : Z
}.

(** The state of the process: the database behind the global [memory], the
    number of [CURRENT_TIMESTAMP] evaluations so far, the global [agent] of
    agent.py and the number of [ChatAgent] objects constructed. *)
Record World := {
  db : Database;
  ticks : nat;
  agent : option ChatAgent;
  constructed : nat
}.

Definition set_db (d : Database) (w : World) : World :=
  {| db := d; ticks := ticks w; agent := agent w; constructed := constructed w |}.

Definition empty_database : Database :=
  {| sessions := ∅; messages := []; sqlite_sequence := 0 |}.

(** A process that has just imported memory.py on a new database file. *)
Definition initial_world : World :=
  {| db := empty_database; ticks := 0; agent := None; constructed := 0 |}.

(** ** Exceptions and the monad of the methods *)

(** [sqlite3.IntegrityError], [fastapi.HTTPException] and [OverflowError]
    derive from [Exception]; [asyncio.CancelledError] derives from
    [BaseException] only. *)
Inductive Exn :=
| IntegrityError (msg : string)
| HTTPException (status_code : Z) (detail : string)
| CancelledError
| OverflowError (msg : string).

Definition exn_str (e : Exn) : string :=
  match e with
  | IntegrityError msg => msg
  | HTTPException _ detail => detail
  | CancelledError => ""
  | OverflowError msg => msg
  end.

Inductive Outcome (A : Type) :=
| Returns (a : A)
| Raises (e : Exn).
Arguments Returns {A} a.
Arguments Raises {A} e.

Definition M (A : Type) : Type := World -> Outcome A * World.

Definition ret {A} (a : A) : M A := fun w => (Returns a, w).

Definition bind {A B} (c : M A) (k : A -> M B) : M B :=
  fun w =>
    match c w with
    | (Returns a, w') => k a w'
    | (Raises e, w') => (Raises e, w')
    end.

Definition raise {A} (e : Exn) : M A := fun w => (Raises e, w).

(** [try: c  except <matching e>: h e]. *)
Definition try_except {A} (c : M A) (handles : Exn -> bool) (h : Exn -> M A) : M A :=
  fun w =>
    match c w with
    | (Returns a, w') => (Returns a, w')
    | (Raises e, w') => if handles e then h e w' else (Raises e, w')
    end.

Definition get_world : M World := fun w => (Returns w, w).
Definition put_db (d : Database) : M unit := fun w => (Returns tt, set_db d w).

Declare Scope py_scope.
Delimit Scope py_scope with py.
Notation "x <- c ;; k" := (bind c (fun x => k))
  (at level 100, c at next level, k at level 200, right associativity) : py_scope.
Notation "c ;; k" := (bind c (fun _ => k))
  (at level 100, k at level 200, right associativity) : py_scope.
Local Open Scope py_scope.

Definition is_IntegrityError (e : Exn) : bool :=
  match e with IntegrityError _ => true | _ => false end.

(** What [except Exception] catches. *)
Definition is_Exception (e : Exn) : bool :=
  match e with CancelledError => false | _ => true end.

(** A Python [int] that fits an SQLite INTEGER, of 64 bits with a sign. *)
Definition int64 (n : Z) : bool := (- 2 ^ 63 <=? n) && (n <? 2 ^ 63).

(** Binding a Python [int] to a [?] of a statement: [cursor.execute] raises
    [OverflowError] before the statement runs when the value does not fit. *)
Definition int_too_large : Exn :=
  OverflowError "Python int too large to convert to SQLite INTEGER".

Definition sqlite3_bind_int (n : Z) : M unit :=
  if int64 n then ret tt else raise int_too_large.

(** [metadata or {}]. *)
Definition or_empty (metadata : option Dict) : Dict :=
  match metadata with
  | Some (kv :: d) => kv :: d
  | _ => []
  end.

Section Backend.

(** The wall clock: [clock n] is what the [n]-th evaluation of
    [CURRENT_TIMESTAMP] by a statement returns. *)
Variable clock : nat -> Timestamp.

(** ** The SQL statements of memory.py *)

(** A statement that mentions [CURRENT_TIMESTAMP], or fills a column from
    that default, evaluates it once. *)
Definition tick (w : World) : World :=
  {| db := db w; ticks := S (ticks w); agent := agent w;
     constructed := constructed w |}.

Definition current_timestamp : M Timestamp :=
  fun w => (Returns (clock (ticks w)), tick w).

(** [INSERT INTO sessions (session_id, metadata) VALUES (?, ?)]:
    [created_at] and [updated_at] take their default; the primary key
    rejects a second row with the same [session_id]. *)
Definition sql_insert_session (session_id : string) (metadata_json : Dict) : M unit :=
  now <- current_timestamp ;;
  w <- get_world ;;
  match sessions (db w) !! session_id with
  | Some _ => raise (IntegrityError "UNIQUE constraint failed: sessions.session_id")
  | None =>
      put_db {| sessions := <[session_id :=
                                {| s_created_at := now; s_updated_at := now;
                                   s_metadata := metadata_json |}]> (sessions (db w));
                messages := messages (db w);
                sqlite_sequence := sqlite_sequence (db w) |}
  end.

Definition touch (now : Timestamp) (s : SessionRow) : SessionRow :=
  {| s_created_at := s_created_at s; s_updated_at := now; s_metadata := s_metadata s |}.

(** [UPDATE sessions SET updated_at = CURRENT_TIMESTAMP WHERE session_id = ?]. *)
Definition sql_update_session_timestamp (session_id : string) : M unit :=
  now <- current_timestamp ;;
  w <- get_world ;;
  put_db {| sessions := alter (touch now) session_id (sessions (db w));
            messages := messages (db w);
            sqlite_sequence := sqlite_sequence (db w) |}.

(** [INSERT INTO messages (session_id, role, content, metadata) VALUES (?, ?, ?, ?)]:
    [id] is one more than the largest id ever used and [timestamp] takes its
    default.  The statement runs on a connection of [add_message], which has
    foreign keys off: no parent row is looked for. *)
Definition sql_insert_message (session_id role content : string)
    (metadata_json : Dict) : M unit :=
  now <- current_timestamp ;;
  w <- get_world ;;
  let id := sqlite_sequence (db w) + 1 in
  put_db {| sessions := sessions (db w);
            messages := messages (db w) ++
                        [{| m_id := id; m_session_id := session_id; m_role := role;
                            m_content := content; m_timestamp := now;
                            m_metadata := metadata_json |}];
            sqlite_sequence := id |}.

(** [DELETE FROM sessions WHERE session_id = ?], returning [cursor.rowcount].
    The [ON DELETE CASCADE] of [messages.session_id] removes the child rows
    only on a connection that enforces foreign keys. *)
Definition sql_delete_session (conn : Connection) (session_id : string) : M Z :=
  w <- get_world ;;
  match sessions (db w) !! session_id with
  | None => ret 0
  | Some _ =>
      put_db {| sessions := delete session_id (sessions (db w));
                messages := if foreign_keys conn
                            then filter (fun m => m_session_id m ≠ session_id) (messages (db w))
                            else messages (db w);
                sqlite_sequence := sqlite_sequence (db w) |} ;;
      ret 1
  end.

(** [ORDER BY timestamp ASC] over rows taken in rowid order: a stable
    insertion sort on the timestamp.  Rows with the same timestamp stay in
    rowid order, which is the order in which the scan of
    [idx_messages_session (session_id, timestamp)] meets them, an index entry
    ending with the rowid of its row. *)
Fixpoint insert_by_timestamp (x : MessageRow) (l : list MessageRow) : list MessageRow :=
  match l with
  | [] => [x]
  | y :: l' =>
      if m_timestamp x <=? m_timestamp y then x :: y :: l'
      else y :: insert_by_timestamp x l'
  end.

Fixpoint order_by_timestamp (l : list MessageRow) : list MessageRow :=
  match l with
  | [] => []
  | x :: l' => insert_by_timestamp x (order_by_timestamp l')
  end.

(** [LIMIT ?]: a negative bound is no bound. *)
Definition sql_limit {A} (n : Z) (rows : list A) : list A :=
  if n <? 0 then rows else take (Z.to_nat n) rows.

(** [SELECT role, content, timestamp FROM messages WHERE session_id = ?
     ORDER BY timestamp ASC], with [LIMIT ?] when given; the rows are kept
    whole here and projected by [get_messages]. *)
Definition sql_select_messages (session_id : string) (limit : option Z)
    (d : Database) : list MessageRow :=
  let rows := order_by_timestamp
                (filter (fun m => m_session_id m = session_id) (messages d)) in
  match limit with
  | Some n => sql_limit n rows
  | None => rows
  end.

(** [SELECT COUNT( * ) FROM messages WHERE messages.session_id = sessions.session_id]. *)
Definition sql_count_messages (session_id : string) (d : Database) : Z :=
  Z.of_nat (length (filter (fun m => m_session_id m = session_id) (messages d))).


(** ** memory.py: the methods of [ConversationMemory] *)

(** [create_session]: the INSERT, [True] when it went through, [False] when
    it raised [sqlite3.IntegrityError]. *)
Definition create_session (session_id : string) (metadata : option Dict) : M bool :=
  try_except
    (let metadata_json := or_empty metadata in
     sql_insert_session session_id metadata_json ;;
     ret true)
    is_IntegrityError
    (fun _ => ret false).

(** [add_message]: ensure the session exists, touch it, insert the message,
    commit. *)
Definition add_message (session_id role content : string)
    (metadata : option Dict) : M unit :=
  create_session session_id None ;;
  sql_update_session_timestamp session_id ;;
  let metadata_json := or_empty metadata in
  sql_insert_message session_id role content metadata_json.

(** The dict that [get_messages] builds from a row. *)
Record MessageDict := {
  role : string;
  content : string;
  timestamp : Timestamp
}.

Definition message_dict (row : MessageRow) : MessageDict :=
  {| role := m_role row; content := m_content row; timestamp := m_timestamp row |}.

(** [if limit:] is false for [None] and for [0]; only then is the query run
    without its [LIMIT]. *)
Definition truthy_limit (limit : option Z) : option Z :=
  match limit with
  | Some n => if n =? 0 then None else Some n
  | None => None
  end.

Definition get_messages (session_id : string) (limit : option Z) : M (list MessageDict) :=
  match truthy_limit limit with
  | Some n => sqlite3_bind_int n
  | None => ret tt
  end ;;
  w <- get_world ;;
  let rows := sql_select_messages session_id (truthy_limit limit) (db w) in
  ret (map message_dict rows).

(** The dict that [get_session_info] returns. *)
Record SessionInfo := {
  i_session_id : string;
  i_created_at : Timestamp;
  i_updated_at : Timestamp;
  i_metadata : Dict;
  i_message_count : Z
}.

Definition get_session_info (session_id : string) : M (option SessionInfo) :=
  w <- get_world ;;
  match sessions (db w) !! session_id with
  | None => ret None
  | Some row =>
      ret (Some {| i_session_id := session_id;
                   i_created_at := s_created_at row;
                   i_updated_at := s_updated_at row;
                   i_metadata := s_metadata row;
                   i_message_count := sql_count_messages session_id (db w) |})
  end.

(** [delete_session]: one DELETE on a fresh connection; [rowcount > 0]. *)
Definition delete_session (session_id : string) : M bool :=
  let conn := sqlite3_connect in
  rowcount <- sql_delete_session conn session_id ;;
  let deleted := 0 <? rowcount in
  ret deleted.


(** ** agent.py *)

(** [settings.openai_temperature] and [settings.openai_max_tokens]. *)
Variable settings_openai_temperature : Q.
Variable settings_openai_max_tokens : Z.

(** [HumanMessage(content=...)] and [AIMessage(content=...)]. *)
Inductive LCMessage :=
| HumanMessage (content : string)
| AIMessage (content : string).

(** What [AgentExecutor.invoke] returns: a dict that may hold ["output"] and
    ["intermediate_steps"]; a step is a sequence, and an element of a step
    carries its [tool] attribute when it has one. *)
Definition Step := list (option string).

Record ExecResult := {
  r_output : option string;
  r_intermediate_steps : option (list Step)
}.

(** One item of [AgentExecutor.astream]: the value under ["output"], and the
    list under ["agent"]["messages"], each message with its [content]
    attribute when it has one. *)
Record ExecChunk := {
  c_output : option string;
  c_agent_messages : option (list (option string))
}.

(** How the executor's stream stops: it is exhausted, it raises an
    [Exception] with the given [str], or the task is cancelled while it is
    awaited. *)
Inductive ExecEnd :=
| Exhausted
| RaisesException (description : string)
| RaisesCancelled.

Record ExecStream := {
  s_chunks : list ExecChunk;
  s_end : ExecEnd
}.

(** The LangChain executor, outside this repository.  [inl d]: [invoke]
    raised an [Exception] [e] with [str(e) = d]. *)
Variable agent_executor_invoke :
  ChatAgent -> string -> list LCMessage -> string + ExecResult.
Variable agent_executor_astream :
  ChatAgent -> string -> list LCMessage -> ExecStream.

(** [x or default] on an optional float and on an optional int. *)
Definition float_or (x : option Q) (default : Q) : Q :=
  match x with
  | Some v => if Qeq_bool v 0 then default else v
  | None => default
  end.

Definition int_or (x : option Z) (default : Z) : Z :=
  match x with
  | Some v => if v =? 0 then default else v
  | None => default
  end.

(** [ChatAgent.__init__], as far as the fields of the record go. *)
Definition ChatAgent_init (temperature : option Q) (max_tokens : option Z) : M ChatAgent :=
  fun w =>
    (Returns {| a_instance := constructed w;
                a_temperature := float_or temperature settings_openai_temperature;
                a_max_tokens := int_or max_tokens settings_openai_max_tokens |},
     {| db := db w; ticks := ticks w; agent := agent w;
        constructed := S (constructed w) |}).

Definition set_agent (a : option ChatAgent) : M unit :=
  fun w =>
    (Returns tt,
     {| db := db w; ticks := ticks w; agent := a; constructed := constructed w |}).

(** [get_agent]: the global [agent] is built on the first call only. *)
Definition get_agent (temperature : option Q) (max_tokens : option Z) : M ChatAgent :=
  w <- get_world ;;
  match agent w with
  | None =>
      a <- ChatAgent_init temperature max_tokens ;;
      set_agent (Some a) ;;
      ret a
  | Some a => ret a
  end.

(** [str.lower] on the letters A to Z; no other character lowers to a letter
    of "user" or "assistant". *)
Definition lower_ascii (c : ascii) : ascii :=
  let n := nat_of_ascii c in
  if ((65 <=? n) && (n <=? 90))%nat then ascii_of_nat (n + 32) else c.

Fixpoint lower (s : string) : string :=
  match s with
  | EmptyString => EmptyString
  | String c s' => String (lower_ascii c) (lower s')
  end.

Fixpoint format_chat_history (msgs : list MessageDict) : list LCMessage :=
  match msgs with
  | [] => []
  | msg :: rest =>
      let r := lower (role msg) in
      if String.eqb r "user" then HumanMessage (content msg) :: format_chat_history rest
      else if String.eqb r "assistant" then AIMessage (content msg) :: format_chat_history rest
      else format_chat_history rest
  end.

(** The dict that [run] returns. *)
Record RunResult := {
  output : string;
  tools_used : list string;
  intermediate_steps : list Step
}.

Fixpoint extract_tools_used (steps : list Step) : list string :=
  match steps with
  | [] => []
  | step :: rest =>
      match step with
      | [] => extract_tools_used rest
      | first :: _ => default "unknown" first :: extract_tools_used rest
      end
  end.

(** [ChatAgent.run]: the whole body is under [try], and [except Exception]
    answers with the apology. *)
Definition run (self : ChatAgent) (user_input : string)
    (chat_history : list MessageDict) : RunResult :=
  let history := format_chat_history chat_history in
  match agent_executor_invoke self user_input history with
  | inr result =>
      let tools_used :=
        match r_intermediate_steps result with
        | Some steps => extract_tools_used steps
        | None => []
        end in
      {| output := default "" (r_output result);
         tools_used := tools_used;
         intermediate_steps := default [] (r_intermediate_steps result) |}
  | inl e =>
      {| output := "I encountered an error: " +:+ e +:+ ". Please try again.";
         tools_used := [];
         intermediate_steps := [] |}
  end.

(** What one item of the executor's stream makes [astream] yield. *)
Definition yields_of_chunk (chunk : ExecChunk) : list string :=
  match c_output chunk with
  | Some out => [out]
  | None =>
      match c_agent_messages chunk with
      | Some msgs => omap id msgs
      | None => []
      end
  end.

(** How an async generator stops when it is driven to its end: its body
    returns, or an exception that it does not catch leaves it. *)
Inductive GenEnd :=
| GenReturns
| GenRaises (e : Exn).

(** [ChatAgent.astream]: the strings it yields, in order, and how it stops.
    An [Exception] of the executor is caught and becomes one more string;
    a cancellation is not an [Exception] and leaves the generator. *)
Definition astream (self : ChatAgent) (user_input : string)
    (chat_history : list MessageDict) : list string * GenEnd :=
  let history := format_chat_history chat_history in
  let stream := agent_executor_astream self user_input history in
  let yielded := concat (map yields_of_chunk (s_chunks stream)) in
  match s_end stream with
  | Exhausted => (yielded, GenReturns)
  | RaisesException e => (yielded ++ ["Error: " +:+ e], GenReturns)
  | RaisesCancelled => (yielded, GenRaises CancelledError)
  end.


(** ** main.py: the chat handlers *)

Record ChatRequest := {
  req_message : string;
  req_session_id : string;
  req_stream : bool;
  req_temperature : option Q;
  req_max_tokens : option Z
}.

Record ChatResponse := {
  resp_response : string;
  resp_session_id : string;
  resp_tools_used : list string;
  resp_tokens_used : option Z;
  resp_finish_reason : option string
}.

(** The status that FastAPI answers with: 200 when the handler returns, the
    code of an [HTTPException], 500 for any other exception. *)
Definition http_status {A} (o : Outcome A) : Z :=
  match o with
  | Returns _ => 200
  | Raises (HTTPException code _) => code
  | Raises _ => 500
  end.

(** The first lines of both handlers: get or create the session, read the
    history, save the user message, get the agent. *)
Definition resolve_session (session_id : string) : M unit :=
  session_info <- get_session_info session_id ;;
  match session_info with
  | None => create_session session_id None ;; ret tt
  | Some _ => ret tt
  end.

(** [POST /chat]. *)
Definition chat (request : ChatRequest) : M ChatResponse :=
  try_except
    (resolve_session (req_session_id request) ;;
     chat_history <- get_messages (req_session_id request) None ;;
     add_message (req_session_id request) "user" (req_message request) None ;;
     agent <- get_agent (req_temperature request) (req_max_tokens request) ;;
     let result := run agent (req_message request) chat_history in
     add_message (req_session_id request) "assistant" (output result)
       (Some [("tools_used", JList (map JStr (tools_used result)))]) ;;
     ret {| resp_response := output result;
            resp_session_id := req_session_id request;
            resp_tools_used := tools_used result;
            resp_tokens_used := None;
            resp_finish_reason := None |})
    is_Exception
    (fun e => raise (HTTPException 500 ("Chat processing error: " +:+ exn_str e))).

Definition LF : string := String (ascii_of_nat 10) EmptyString.

(** An SSE frame: [f"data: {chunk}\n\n"]. *)
Definition sse_frame (chunk : string) : string := "data: " +:+ chunk +:+ LF +:+ LF.

Definition done_frame : string := sse_frame "[DONE]".

(** Where the generator object of [generate] is suspended: in its loop
    (before the first item, or at the [yield] of a chunk), at its last
    [yield], or nowhere any more. *)
Inductive GenState :=
| InLoop
| AtDone
| Finished.

(** The generator object of [generate()]: the closure variables
    [request.session_id] and [full_response], what [agent.astream] has yet to
    yield and how it stops, and the point of suspension. *)
Record Generator := {
  g_session_id : string;
  g_full_response : string;
  g_pending : list string;
  g_end : GenEnd;
  g_state : GenState
}.

(** [__anext__] on the generator: run it to its next [yield].  [Some frame]
    is the frame yielded, [None] is [StopAsyncIteration]. *)
Definition generate_anext (g : Generator) : M (option string * Generator) :=
  match g_state g with
  | Finished => ret (None, g)
  | AtDone =>
      ret (None, {| g_session_id := g_session_id g;
                    g_full_response := g_full_response g;
                    g_pending := g_pending g; g_end := g_end g;
                    g_state := Finished |})
  | InLoop =>
      match g_pending g with
      | chunk :: rest =>
          ret (Some (sse_frame chunk),
               {| g_session_id := g_session_id g;
                  g_full_response := g_full_response g +:+ chunk;
                  g_pending := rest; g_end := g_end g;
                  g_state := InLoop |})
      | [] =>
          match g_end g with
          | GenReturns =>
              add_message (g_session_id g) "assistant" (g_full_response g) None ;;
              ret (Some done_frame,
                   {| g_session_id := g_session_id g;
                      g_full_response := g_full_response g;
                      g_pending := []; g_end := g_end g;
                      g_state := AtDone |})
          | GenRaises e => raise e
          end
      end
  end.

(** [generate()]: calling the generator function makes the generator
    object, suspended before its first statement; [full_response] is still
    the empty string that [chat_stream] gave it, and [agent.astream] has
    everything yet to yield. *)
Definition generate (request : ChatRequest) (agent : ChatAgent)
    (chat_history : list MessageDict) : Generator :=
  let produced := astream agent (req_message request) chat_history in
  {| g_session_id := req_session_id request;
     g_full_response := "";
     g_pending := produced.1;
     g_end := produced.2;
     g_state := InLoop |}.

(** [POST /chat/stream]: the handler returns the generator object, not yet
    started, wrapped in a [StreamingResponse]. *)
Definition chat_stream (request : ChatRequest) : M Generator :=
  try_except
    (resolve_session (req_session_id request) ;;
     chat_history <- get_messages (req_session_id request) None ;;
     add_message (req_session_id request) "user" (req_message request) None ;;
     agent <- get_agent (req_temperature request) (req_max_tokens request) ;;
     ret (generate request agent chat_history))
    is_Exception
    (fun e => raise (HTTPException 500 ("Streaming error: " +:+ exn_str e))).

(** [StreamingResponse] iterating its body: each frame it gets from the
    generator is sent to the client.  The client takes [patience] frames at
    most; when it is gone the iteration is cancelled and the generator is
    never resumed again.  The result is the frames sent and whether the
    generator ran to its end. *)
Fixpoint stream_response (patience : nat) (g : Generator) : M (list string * bool) :=
  match patience with
  | O => ret ([], false)
  | S patience' =>
      r <- generate_anext g ;;
      match r with
      | (None, _) => ret ([], true)
      | (Some frame, g') =>
          r' <- stream_response patience' g' ;;
          ret (frame :: r'.1, r'.2)
      end
  end.

(** One streaming request served to a client of the given patience. *)
Definition serve_chat_stream (request : ChatRequest) (patience : nat)
    : M (list string * bool) :=
  g <- chat_stream request ;;
  stream_response patience g.

(** The assistant messages of a session, as [get_messages] lists them. *)
Definition assistant_contents (session_id : string) (d : Database) : list string :=
  map m_content
    (filter (fun m => m_role m = "assistant")
       (sql_select_messages session_id None d)).


(** ** memory.py: listing and sweeping the sessions *)

(** The order in which the engine meets the rows of [sessions] when it
    runs the listing query with the given [LIMIT] and [OFFSET].
    [ORDER BY updated_at] says nothing about rows of equal [updated_at], and
    no index of the schema decides it: it is left to the engine, which may
    choose by the query, and which reads every row once. *)
Variable sessions_scan :
  Z -> Z -> gmap string SessionRow -> list (string * SessionRow).
Hypothesis sessions_scan_perm :
  forall (limit offset : Z) (ss : gmap string SessionRow),
    sessions_scan limit offset ss ≡ₚ map_to_list ss.

(** [ORDER BY updated_at DESC] on the rows as they are met. *)
Fixpoint insert_by_updated_at (x : string * SessionRow)
    (l : list (string * SessionRow)) : list (string * SessionRow) :=
  match l with
  | [] => [x]
  | y :: l' =>
      if s_updated_at y.2 <=? s_updated_at x.2 then x :: y :: l'
      else y :: insert_by_updated_at x l'
  end.

Fixpoint order_by_updated_at_desc (l : list (string * SessionRow))
    : list (string * SessionRow) :=
  match l with
  | [] => []
  | x :: l' => insert_by_updated_at x (order_by_updated_at_desc l')
  end.

(** [OFFSET ?]: a negative offset is no offset. *)
Definition sql_offset {A} (n : Z) (rows : list A) : list A :=
  drop (Z.to_nat n) rows.

(** The dict built from a row of the two session queries, with its
    [message_count] subquery. *)
Definition session_info (d : Database) (entry : string * SessionRow) : SessionInfo :=
  {| i_session_id := entry.1;
     i_created_at := s_created_at entry.2;
     i_updated_at := s_updated_at entry.2;
     i_metadata := s_metadata entry.2;
     i_message_count := sql_count_messages entry.1 d |}.

(** [list_sessions]: [ORDER BY updated_at DESC LIMIT ? OFFSET ?]. *)
Definition list_sessions (limit offset : Z) : M (list SessionInfo) :=
  sqlite3_bind_int limit ;;
  sqlite3_bind_int offset ;;
  w <- get_world ;;
  let rows := order_by_updated_at_desc
                (sessions_scan limit offset (sessions (db w))) in
  let page := sql_limit limit (sql_offset offset rows) in
  ret (session_info (db w) <$> page).

(** [datetime('now', '-' || ? || ' days')] at the second [now]: the text of
    the instant [days] days earlier.  With a negative [days] the modifier
    reads ["--5 days"], which is no modifier, and the function gives NULL. *)
Definition datetime_days_ago (now : Timestamp) (days : Z) : option Timestamp :=
  if days <? 0 then None else Some (now - 86400 * days).

(** [updated_at < <cutoff>], false on a NULL cutoff. *)
Definition older_than (cutoff : option Timestamp) (entry : string * SessionRow) : Prop :=
  match cutoff with
  | Some t => s_updated_at entry.2 < t
  | None => False
  end.

#[global] Instance older_than_dec cutoff entry : Decision (older_than cutoff entry).
Proof. destruct cutoff; simpl; apply _. Defined.

(** [DELETE FROM sessions WHERE updated_at < datetime('now', ...)],
    returning [cursor.rowcount]; ['now'] is one reading of the clock.  The
    statement runs on a connection of [clear_old_sessions], which has
    foreign keys off: no row of [messages] goes with the sessions. *)
Definition sql_delete_old_sessions (days : Z) : M Z :=
  now <- current_timestamp ;;
  w <- get_world ;;
  let cutoff := datetime_days_ago now days in
  put_db {| sessions := filter (fun entry => ~ older_than cutoff entry) (sessions (db w));
            messages := messages (db w);
            sqlite_sequence := sqlite_sequence (db w) |} ;;
  ret (Z.of_nat (size (filter (older_than cutoff) (sessions (db w))))).

(** [clear_old_sessions]: [days] is bound before the statement runs. *)
Definition clear_old_sessions (days : Z) : M Z :=
  sqlite3_bind_int days ;;
  deleted <- sql_delete_old_sessions days ;;
  ret deleted.

(** ** main.py: the key check and the session endpoints *)

(** [settings.enable_auth] and [settings.api_key]. *)
Variable settings_enable_auth : bool.
Variable settings_api_key : option string.

(** [verify_api_key]; [not settings.api_key] holds for [None] and for the
    empty string. *)
Definition verify_api_key (x_api_key : option string) : M bool :=
  if negb settings_enable_auth then ret true
  else
    match settings_api_key with
    | None | Some EmptyString => ret true
    | Some _ =>
        if bool_decide (x_api_key <> settings_api_key)
        then raise (HTTPException 401 "Invalid API key")
        else ret true
    end.


Record SessionResponse := {
  sr_session_id : string;
  sr_created_at : Timestamp;
  sr_message_count : Z;
  sr_metadata : Dict
}.

Record SessionListResponse := {
  slr_sessions : list SessionResponse;
  slr_total : Z
}.

(** [SessionResponse(session_id=..., created_at=..., message_count=...,
    metadata=...)] from a session info dict; [datetime.fromisoformat] reads
    back the instant that the text of [created_at] denotes. *)
Definition session_response (info : SessionInfo) : SessionResponse :=
  {| sr_session_id := i_session_id info;
     sr_created_at := i_created_at info;
     sr_message_count := i_message_count info;
     sr_metadata := i_metadata info |}.

Definition is_HTTPException (e : Exn) : bool :=
  match e with HTTPException _ _ => true | _ => false end.



(** [GET /sessions], the function [list_sessions] of main.py. *)
Definition api_list_sessions (limit offset : Z) : M SessionListResponse :=
  try_except
    (sessions <- list_sessions limit offset ;;
     let session_responses := session_response <$> sessions in
     ret {| slr_sessions := session_responses;
            slr_total := Z.of_nat (length session_responses) |})
    is_Exception
    (fun e => raise (HTTPException 500 ("Session listing error: " +:+ exn_str e))).

(** [GET /sessions/{session_id}], the function [get_session] of main.py:
    an [HTTPException] is raised again as it is. *)
Definition api_get_session (session_id : string) : M SessionResponse :=
  try_except
    (session_info <- get_session_info session_id ;;
     match session_info with
     | None => raise (HTTPException 404 "Session not found")
     | Some info => ret (session_response info)
     end)
    (fun e => is_Exception e && negb (is_HTTPException e))
    (fun e => raise (HTTPException 500 ("Session retrieval error: " +:+ exn_str e))).

(** [DELETE /sessions/{session_id}], the function [delete_session] of
    main.py; the result is the text under ["message"]. *)
Definition api_delete_session (session_id : string) : M string :=
  try_except
    (deleted <- delete_session session_id ;;
     if negb deleted then raise (HTTPException 404 "Session not found")
     else ret ("Session " +:+ session_id +:+ " deleted successfully"))
    (fun e => is_Exception e && negb (is_HTTPException e))
    (fun e => raise (HTTPException 500 ("Session deletion error: " +:+ exn_str e))).

(** ** tools.py: the calculator *)

(** A Python [str] as the sequence of its code points. *)
Definition PyStr := list N.

(** The code points of a text of ASCII characters. *)
Fixpoint codepoints (s : string) : PyStr :=
  match s with
  | EmptyString => []
  | String c s' => N_of_ascii c :: codepoints s'
  end.

(** The digits [0-9] of the character class. *)
Definition is_digit (c : N) : bool := ((48 <=? c) && (c <=? 57))%N.

(** The characters [+ - * / ( ) .] of the character class. *)
Definition is_operator (c : N) : bool :=
  bool_decide (c ∈ [43; 45; 42; 47; 40; 41; 46]%N).

(** [\s] in a [str] pattern: the characters that Python counts as
    whitespace. *)
Definition is_space (c : N) : bool :=
  (((9 <=? c) && (c <=? 13)) || ((28 <=? c) && (c <=? 32)) ||
   bool_decide (c ∈ [133; 160; 5760; 8232; 8233; 8239; 8287; 12288]) ||
   ((8192 <=? c) && (c <=? 8202)))%N.

(** [re.sub(r'[^0-9+\-*/().\s]', '', expression)]. *)
Definition sanitize (expression : PyStr) : PyStr :=
  filter (fun c => is_digit c || is_operator c || is_space c = true) expression.

(** [eval(sanitized, allowed_names)] followed by [str]: the text of the
    value, or [inl d] when an [Exception] [e] with [str(e) = d] is raised. *)
Variable python_eval : PyStr -> PyStr + PyStr.

(** [CalculatorTool._run]. *)
Definition CalculatorTool_run (expression : PyStr) : PyStr :=
  let sanitized := sanitize expression in
  match python_eval sanitized with
  | inr result => result
  | inl e =>
      codepoints "Error calculating '" ++ expression ++ codepoints "': " ++ e
  end.

(** ** Vocabulary of the statements *)

(** The row that [create_session] inserts. *)
Definition fresh_session (now : Timestamp) (metadata : Dict) : SessionRow :=
  {| s_created_at := now; s_updated_at := now; s_metadata := metadata |}.

(** The [sessions] table once [create_session] has run. *)
Definition ensured (now : Timestamp) (session_id : string)
    (ss : gmap string SessionRow) : gmap string SessionRow :=
  match ss !! session_id with
  | Some _ => ss
  | None => <[session_id := fresh_session now []]> ss
  end.

Definition new_message (d : Database) (now : Timestamp)
    (session_id role content : string) (metadata : option Dict) : MessageRow :=
  {| m_id := sqlite_sequence d + 1; m_session_id := session_id; m_role := role;
     m_content := content; m_timestamp := now; m_metadata := or_empty metadata |}.

(** The order the claims speak of: by timestamp, then by id. *)
Definition by_timestamp_id (a b : MessageRow) : Prop :=
  m_timestamp a < m_timestamp b \/
  (m_timestamp a = m_timestamp b /\ m_id a < m_id b).

Definition by_id (a b : MessageRow) : Prop := m_id a < m_id b.

Definition by_timestamp (a b : MessageRow) : Prop := m_timestamp a <= m_timestamp b.

(** The rows of [messages] lie in rowid order and no id exceeds
    [sqlite_sequence]: what AUTOINCREMENT maintains. *)
Definition ids_increasing (d : Database) : Prop :=
  StronglySorted by_id (messages d) /\
  Forall (fun m => m_id m <= sqlite_sequence d) (messages d).

(** The clock never goes back. *)
Definition clock_monotone : Prop :=
  forall i j : nat, (i <= j)%nat -> clock i <= clock j.

(** The rows of [messages] carry timestamps that do not decrease with the
    rowid, none of them later than the next reading of the clock. *)
Definition chronological (w : World) : Prop :=
  StronglySorted by_timestamp (messages (db w)) /\
  Forall (fun m => m_timestamp m <= clock (ticks w)) (messages (db w)).

(** One call of [add_message], as data. *)
Record Append := {
  ap_session_id : string;
  ap_role : string;
  ap_content : string;
  ap_metadata : option Dict
}.

(** A sequence of [add_message] calls, one after the other. *)
Fixpoint add_messages (calls : list Append) : M unit :=
  match calls with
  | [] => ret tt
  | c :: rest =>
      add_message (ap_session_id c) (ap_role c) (ap_content c) (ap_metadata c) ;;
      add_messages rest
  end.

(** The process after one [add_message]. *)
Definition appended (session_id role content : string) (metadata : option Dict)
    (w : World) : World :=
  {| db := {| sessions := alter (touch (clock (S (ticks w)))) session_id
                            (ensured (clock (ticks w)) session_id (sessions (db w)));
              messages := messages (db w) ++
                          [new_message (db w) (clock (S (S (ticks w))))
                             session_id role content metadata];
              sqlite_sequence := sqlite_sequence (db w) + 1 |};
     ticks := S (S (S (ticks w)));
     agent := agent w;
     constructed := constructed w |}.

(** The process after the handlers have got or created the session. *)
Definition resolved (session_id : string) (w : World) : World :=
  match sessions (db w) !! session_id with
  | Some _ => w
  | None =>
      set_db {| sessions := <[session_id := fresh_session (clock (ticks w)) []]>
                              (sessions (db w));
                messages := messages (db w);
                sqlite_sequence := sqlite_sequence (db w) |} (tick w)
  end.

(** The agent that [get_agent] returns, and the process after the call. *)
Definition the_agent (temperature : option Q) (max_tokens : option Z)
    (w : World) : ChatAgent :=
  match agent w with
  | Some a => a
  | None =>
      {| a_instance := constructed w;
         a_temperature := float_or temperature settings_openai_temperature;
         a_max_tokens := int_or max_tokens settings_openai_max_tokens |}
  end.

Definition agent_installed (temperature : option Q) (max_tokens : option Z)
    (w : World) : World :=
  match agent w with
  | Some _ => w
  | None =>
      {| db := db w; ticks := ticks w;
         agent := Some (the_agent temperature max_tokens w);
         constructed := S (constructed w) |}
  end.

(** What a chat request hands to the agent: the history read before the
    user message is saved, and the agent in charge. *)
Definition chat_history_of (request : ChatRequest) (w : World) : list MessageDict :=
  message_dict <$>
    sql_select_messages (req_session_id request) None
      (db (resolved (req_session_id request) w)).

Definition chat_agent_of (request : ChatRequest) (w : World) : ChatAgent :=
  the_agent (req_temperature request) (req_max_tokens request) w.

(** The process when the handler has saved the user message and has its
    agent. *)
Definition user_turn_saved (request : ChatRequest) (w : World) : World :=
  agent_installed (req_temperature request) (req_max_tokens request)
    (appended (req_session_id request) "user" (req_message request) None
       (resolved (req_session_id request) w)).

(** The generator of [generate] suspended in its loop, and at its last
    [yield]. *)
Definition in_loop (session_id acc : string) (pending : list string)
    (stop : GenEnd) : Generator :=
  {| g_session_id := session_id; g_full_response := acc; g_pending := pending;
     g_end := stop; g_state := InLoop |}.

Definition at_done (session_id acc : string) : Generator :=
  {| g_session_id := session_id; g_full_response := acc; g_pending := [];
     g_end := GenReturns; g_state := AtDone |}.

(** A request with other values for its two overrides. *)
Definition with_overrides (request : ChatRequest) (temperature : option Q)
    (max_tokens : option Z) : ChatRequest :=
  {| req_message := req_message request;
     req_session_id := req_session_id request;
     req_stream := req_stream request;
     req_temperature := temperature;
     req_max_tokens := max_tokens |}.

(** What [agent.astream] produces for a request. *)
Definition produced_for (request : ChatRequest) (w : World) : list string * GenEnd :=
  astream (chat_agent_of request w) (req_message request) (chat_history_of request w).

(** The text of several chunks put together. *)
Definition join (chunks : list string) : string := foldr String.append "" chunks.

(** The role and the text of a stored message, and of a call. *)
Definition row_turn (m : MessageRow) : string * string := (m_role m, m_content m).
Definition call_turn (c : Append) : string * string := (ap_role c, ap_content c).

(** [assistant_contents] is the same before and after. *)
Definition no_assistant_message_appended (session_id : string)
    (before after : Database) : Prop :=
  assistant_contents session_id after = assistant_contents session_id before.

(** The order of a listing: most recently updated first. *)
Definition newest_first (a b : SessionInfo) : Prop :=
  i_updated_at b <= i_updated_at a.

Definition row_newest_first (a b : string * SessionRow) : Prop :=
  s_updated_at b.2 <= s_updated_at a.2.

(** The whole listing of a database by the query of the given [LIMIT] and
    [OFFSET], before they are applied. *)
Definition all_sessions (limit offset : Z) (d : Database) : list SessionInfo :=
  session_info d <$>
    order_by_updated_at_desc (sessions_scan limit offset (sessions d)).



(** One call of a method of [ConversationMemory] that writes. *)
Inductive StoreCall :=
| CreateSession (session_id : string) (metadata : option Dict)
| AddMessage (session_id role content : string) (metadata : option Dict)
| DeleteSession (session_id : string)
| ClearOldSessions (days : Z).

Definition store_call (c : StoreCall) : M unit :=
  match c with
  | CreateSession session_id metadata =>
      create_session session_id metadata ;; ret tt
  | AddMessage session_id role content metadata =>
      add_message session_id role content metadata
  | DeleteSession session_id =>
      delete_session session_id ;; ret tt
  | ClearOldSessions days =>
      clear_old_sessions days ;; ret tt
  end.

(** A call whose caller goes on whether it returned or raised. *)
Definition attempt {A} (c : M A) : M unit :=
  fun w => (Returns tt, (c w).2).

(** A history of the store: such calls one after the other, each by a
    caller of its own. *)
Fixpoint store_calls (cs : list StoreCall) : M unit :=
  match cs with
  | [] => ret tt
  | c :: rest => attempt (store_call c) ;; store_calls rest
  end.

(** The number of [add_message] calls of a history. *)
Fixpoint appends (cs : list StoreCall) : nat :=
  match cs with
  | [] => O
  | AddMessage _ _ _ _ :: rest => S (appends rest)
  | _ :: rest => appends rest
  end.

(** The call removes no session. *)
Definition removes_nothing (c : StoreCall) : Prop :=
  match c with
  | DeleteSession _ | ClearOldSessions _ => False
  | _ => True
  end.

(** Every message belongs to a session that has a row. *)
Definition owned (d : Database) : Prop :=
  Forall (fun m => is_Some (sessions d !! m_session_id m)) (messages d).

(** No session was updated before it was created, or after the next
    reading of the clock. *)
Definition session_times_ordered (w : World) : Prop :=
  forall sid row,
    sessions (db w) !! sid = Some row ->
    s_created_at row <= s_updated_at row /\ s_updated_at row <= clock (ticks w).

(** Every stored message is a turn of the user or of the assistant. *)
Definition known_roles (d : Database) : Prop :=
  Forall (fun m => m_role m = "user" \/ m_role m = "assistant") (messages d).

(** The LangChain message of a stored turn. *)
Definition lc_message (m : MessageRow) : LCMessage :=
  if String.eqb (m_role m) "user" then HumanMessage (m_content m)
  else AIMessage (m_content m).

(** ** Concrete inputs for the examples *)

(** An engine that reads [sessions] in the order of the keys of the map. *)
Definition key_order (limit offset : Z) (ss : gmap string SessionRow)
    : list (string * SessionRow) := map_to_list ss.

(** A clock that is read once a day. *)
Definition daily_clock : nat -> Timestamp := fun n => 86400 * Z.of_nat n.

Definition three_appends : list Append :=
  [ {| ap_session_id := "a"; ap_role := "user"; ap_content := "1";
       ap_metadata := None |};
    {| ap_session_id := "b"; ap_role := "user"; ap_content := "2";
       ap_metadata := None |};
    {| ap_session_id := "c"; ap_role := "assistant"; ap_content := "3";
       ap_metadata := None |} ].

Definition some_history : list StoreCall :=
  [ CreateSession "a" None;
    AddMessage "a" "user" "1" None;
    AddMessage "b" "user" "2" None;
    CreateSession "b" (Some [("k", JNull)]) ].

(** An evaluator that fails on every text. *)
Definition failing_eval (text : PyStr) : PyStr + PyStr := inl (codepoints "invalid syntax").


(** A clock that is read eight times in each second. *)
Definition slow_clock : nat -> Timestamp := fun n => Z.of_nat (n / 8).

Definition hello_calls : list Append :=
  [ {| ap_session_id := "s1"; ap_role := "user"; ap_content := "Hello";
       ap_metadata := None |};
    {| ap_session_id := "s1"; ap_role := "assistant"; ap_content := "Hi there!";
       ap_metadata := None |};
    {| ap_session_id := "s2"; ap_role := "user"; ap_content := "Elsewhere";
       ap_metadata := None |};
    {| ap_session_id := "s1"; ap_role := "user"; ap_content := "Bye";
       ap_metadata := None |} ].

(** A clock that is set back an hour after its third reading. *)
Definition set_back_clock : nat -> Timestamp :=
  fun n => if (n <? 3)%nat then 3600 else 0.

Definition two_appends : list Append :=
  [ {| ap_session_id := "s1"; ap_role := "user"; ap_content := "first";
       ap_metadata := None |};
    {| ap_session_id := "s1"; ap_role := "user"; ap_content := "second";
       ap_metadata := None |} ].

Definition hello_request : ChatRequest :=
  {| req_message := "Hello"; req_session_id := "s1"; req_stream := false;
     req_temperature := None; req_max_tokens := None |}.

(** An executor whose [invoke] raises [Exception("boom")]. *)
Definition failing_invoke (a : ChatAgent) (input : string) (history : list LCMessage)
    : string + ExecResult := inl "boom".

Definition output_chunk (text : string) : ExecChunk :=
  {| c_output := Some text; c_agent_messages := None |}.

(** Executors whose stream yields "Hel" and then: yields "lo" and is
    exhausted; raises [Exception("boom")]; is cancelled. *)
Definition complete_stream (a : ChatAgent) (input : string) (history : list LCMessage)
    : ExecStream :=
  {| s_chunks := [output_chunk "Hel"; output_chunk "lo"]; s_end := Exhausted |}.

Definition faulty_stream (a : ChatAgent) (input : string) (history : list LCMessage)
    : ExecStream :=
  {| s_chunks := [output_chunk "Hel"]; s_end := RaisesException "boom" |}.

Definition cancelled_stream (a : ChatAgent) (input : string) (history : list LCMessage)
    : ExecStream :=
  {| s_chunks := [output_chunk "Hel"]; s_end := RaisesCancelled |}.

(** A process whose first request has been served. *)
Definition warm_agent : ChatAgent :=
  {| a_instance := 0; a_temperature := 7 # 10; a_max_tokens := 1000 |}.

Definition warm_world : World :=
  {| db := empty_database; ticks := 0; agent := Some warm_agent; constructed := 1 |}.

(** * Properties *)

(** ** The store, statement by statement *)

Lemma create_session_absent session_id metadata w :
  sessions (db w) !! session_id = None ->
  create_session session_id metadata w =
    (Returns true,
     set_db {| sessions := <[session_id := fresh_session (clock (ticks w)) (or_empty metadata)]>
                             (sessions (db w));
               messages := messages (db w);
               sqlite_sequence := sqlite_sequence (db w) |} (tick w)).
Proof.
  intros Habsent.
  unfold create_session, try_except, sql_insert_session, bind, current_timestamp,
    get_world; simpl.
  rewrite Habsent; reflexivity.
Qed.

Lemma create_session_present session_id metadata w row :
  sessions (db w) !! session_id = Some row ->
  create_session session_id metadata w = (Returns false, tick w).
Proof.
  intros Hpresent.
  unfold create_session, try_except, sql_insert_session, bind, current_timestamp,
    get_world; simpl.
  rewrite Hpresent; reflexivity.
Qed.

Lemma add_message_eq session_id role content metadata w :
  add_message session_id role content metadata w =
    (Returns tt, appended session_id role content metadata w).
Proof.
  unfold add_message, bind at 1.
  unfold appended, ensured.
  destruct (sessions (db w) !! session_id) as [row|] eqn:Hrow.
  - rewrite (create_session_present _ _ _ _ Hrow). reflexivity.
  - rewrite (create_session_absent _ _ _ Hrow). reflexivity.
Qed.

Lemma delete_session_eq session_id w :
  delete_session session_id w =
    match sessions (db w) !! session_id with
    | None => (Returns false, w)
    | Some _ =>
        (Returns true,
         set_db {| sessions := delete session_id (sessions (db w));
                   messages := messages (db w);
                   sqlite_sequence := sqlite_sequence (db w) |} w)
    end.
Proof.
  unfold delete_session, sql_delete_session, bind, get_world; simpl.
  destruct (sessions (db w) !! session_id); reflexivity.
Qed.

Lemma get_messages_eq session_id limit w :
  get_messages session_id limit w =
    match truthy_limit limit with
    | Some n =>
        if int64 n
        then (Returns (map message_dict
                         (sql_select_messages session_id (Some n) (db w))), w)
        else (Raises int_too_large, w)
    | None =>
        (Returns (map message_dict (sql_select_messages session_id None (db w))), w)
    end.
Proof.
  unfold get_messages, sqlite3_bind_int.
  destruct (truthy_limit limit) as [n|]; [|reflexivity].
  destruct (int64 n); reflexivity.
Qed.

Lemma get_messages_unlimited session_id w :
  get_messages session_id None w =
    (Returns (map message_dict (sql_select_messages session_id None (db w))), w).
Proof. reflexivity. Qed.

(** The outcome of [get_messages] is decided by the rows of the session. *)
Lemma get_messages_same_rows session_id limit w w' :
  filter (fun m => m_session_id m = session_id) (messages (db w')) =
  filter (fun m => m_session_id m = session_id) (messages (db w)) ->
  (get_messages session_id limit w').1 = (get_messages session_id limit w).1.
Proof.
  intros Hrows. rewrite !get_messages_eq.
  assert (Hselect : forall l, sql_select_messages session_id l (db w') =
                              sql_select_messages session_id l (db w)).
  { intros l. unfold sql_select_messages. rewrite Hrows. reflexivity. }
  destruct (truthy_limit limit) as [n|]; [destruct (int64 n)|];
    cbn [fst]; rewrite ?Hselect; reflexivity.
Qed.

(** [delete_session] leaves the [messages] table as it was. *)
Lemma delete_session_messages session_id w :
  messages (db (delete_session session_id w).2) = messages (db w).
Proof.
  rewrite delete_session_eq.
  destruct (sessions (db w) !! session_id); reflexivity.
Qed.


(** ** ORDER BY timestamp *)

Lemma insert_by_timestamp_perm x l : insert_by_timestamp x l ≡ₚ x :: l.
Proof.
  induction l as [|y l IH]; simpl; [done|].
  destruct (m_timestamp x <=? m_timestamp y); [done|].
  rewrite IH. apply Permutation_swap.
Qed.

Lemma order_by_timestamp_perm l : order_by_timestamp l ≡ₚ l.
Proof.
  induction l as [|x l IH]; simpl; [done|].
  by rewrite insert_by_timestamp_perm, IH.
Qed.

Lemma order_by_timestamp_length l : length (order_by_timestamp l) = length l.
Proof. by rewrite order_by_timestamp_perm. Qed.

(** The result is in ascending order of timestamp, whatever the table holds. *)
Lemma insert_by_timestamp_sorted x l :
  StronglySorted by_timestamp l -> StronglySorted by_timestamp (insert_by_timestamp x l).
Proof.
  induction l as [|y l IH]; simpl; intros Hl.
  - repeat constructor.
  - apply StronglySorted_cons in Hl as [Hy Hl].
    destruct (Z.leb_spec (m_timestamp x) (m_timestamp y)) as [Hle|Hgt].
    + apply StronglySorted_cons; split; [|by apply StronglySorted_cons].
      constructor; [exact Hle|].
      eapply Forall_impl; [exact Hy|]. unfold by_timestamp; simpl; intros; lia.
    + apply StronglySorted_cons; split; [|by apply IH].
      rewrite insert_by_timestamp_perm. constructor; [|exact Hy].
      unfold by_timestamp; lia.
Qed.

Lemma order_by_timestamp_sorted l : StronglySorted by_timestamp (order_by_timestamp l).
Proof.
  induction l as [|x l IH]; simpl; [constructor|].
  by apply insert_by_timestamp_sorted.
Qed.

(** Stability: a row that precedes all of [l] in rowid order is put before
    the rows of its own timestamp. *)
Lemma insert_by_timestamp_stable x l :
  Forall (by_id x) l ->
  StronglySorted by_timestamp_id l ->
  StronglySorted by_timestamp_id (insert_by_timestamp x l).
Proof.
  induction l as [|y l IH]; simpl; intros Hx Hl.
  - repeat constructor.
  - apply Forall_cons in Hx as [Hxy Hx].
    apply StronglySorted_cons in Hl as [Hy Hl].
    destruct (Z.leb_spec (m_timestamp x) (m_timestamp y)) as [Hle|Hgt].
    + apply StronglySorted_cons; split; [|by apply StronglySorted_cons].
      assert (Hfirst : by_timestamp_id x y).
      { unfold by_timestamp_id, by_id in *. lia. }
      constructor; [exact Hfirst|].
      apply Forall_forall. intros z Hz.
      rewrite Forall_forall in Hy, Hx.
      specialize (Hy z Hz). specialize (Hx z Hz).
      unfold by_timestamp_id, by_id in *. lia.
    + apply StronglySorted_cons; split; [|by apply IH].
      rewrite insert_by_timestamp_perm. constructor; [|exact Hy].
      unfold by_timestamp_id. lia.
Qed.

Lemma order_by_timestamp_stable l :
  StronglySorted by_id l -> StronglySorted by_timestamp_id (order_by_timestamp l).
Proof.
  induction l as [|x l IH]; simpl; intros Hl; [constructor|].
  apply StronglySorted_cons in Hl as [Hx Hl].
  apply insert_by_timestamp_stable; [|by apply IH].
  by rewrite order_by_timestamp_perm.
Qed.

(** On rows that are already in order of timestamp the sort changes nothing. *)
Lemma order_by_timestamp_id l :
  StronglySorted by_timestamp l -> order_by_timestamp l = l.
Proof.
  induction l as [|x l IH]; simpl; intros Hl; [done|].
  apply StronglySorted_cons in Hl as [Hx Hl].
  rewrite (IH Hl).
  destruct l as [|y l]; simpl; [done|].
  apply Forall_cons in Hx as [Hxy _].
  unfold by_timestamp in Hxy.
  destruct (Z.leb_spec (m_timestamp x) (m_timestamp y)); [done|lia].
Qed.

Lemma StronglySorted_filter {A} (R : relation A) (P : A -> Prop)
    `{!forall x, Decision (P x)} (l : list A) :
  StronglySorted R l -> StronglySorted R (filter P l).
Proof.
  induction l as [|x l IH]; intros Hl; [constructor|].
  apply StronglySorted_cons in Hl as [Hx Hl].
  rewrite filter_cons. destruct (decide (P x)); [|by apply IH].
  apply StronglySorted_cons; split; [|by apply IH].
  apply Forall_forall. intros y Hy.
  apply list_elem_of_filter in Hy as [_ Hy].
  rewrite Forall_forall in Hx. by apply Hx.
Qed.


(** ** Invariants of the [messages] table *)

Lemma ids_increasing_empty : ids_increasing empty_database.
Proof. split; constructor. Qed.

Lemma ids_increasing_add_message session_id role content metadata w :
  ids_increasing (db w) ->
  ids_increasing (db (add_message session_id role content metadata w).2).
Proof.
  intros [Hsorted Hbound]. rewrite add_message_eq; simpl.
  split.
  - apply StronglySorted_app_2; [|done|repeat constructor].
    intros a b Ha Hb. apply list_elem_of_singleton in Hb as ->.
    rewrite Forall_forall in Hbound. specialize (Hbound a Ha).
    unfold by_id; simpl. lia.
  - apply Forall_app; split.
    + eapply Forall_impl; [exact Hbound|]. simpl; intros; lia.
    + repeat constructor. simpl. lia.
Qed.

Lemma ids_increasing_create_session session_id metadata w :
  ids_increasing (db w) -> ids_increasing (db (create_session session_id metadata w).2).
Proof.
  intros Hw. destruct (sessions (db w) !! session_id) as [row|] eqn:Hrow.
  - by rewrite (create_session_present _ _ _ _ Hrow).
  - by rewrite (create_session_absent _ _ _ Hrow).
Qed.

Lemma ids_increasing_delete_session session_id w :
  ids_increasing (db w) -> ids_increasing (db (delete_session session_id w).2).
Proof.
  intros Hw. rewrite delete_session_eq.
  by destruct (sessions (db w) !! session_id).
Qed.

Lemma chronological_initial : chronological initial_world.
Proof. split; constructor. Qed.

Lemma chronological_add_message session_id role content metadata w :
  clock_monotone -> chronological w ->
  chronological (add_message session_id role content metadata w).2.
Proof.
  intros Hclock [Hsorted Hbound]. rewrite add_message_eq.
  unfold chronological; simpl.
  assert (Hlater : clock (ticks w) <= clock (S (S (ticks w)))) by (apply Hclock; lia).
  assert (Hnext : clock (S (S (ticks w))) <= clock (S (S (S (ticks w)))))
    by (apply Hclock; lia).
  split.
  - apply StronglySorted_app_2; [|done|repeat constructor].
    intros a b Ha Hb. apply list_elem_of_singleton in Hb as ->.
    rewrite Forall_forall in Hbound. specialize (Hbound a Ha).
    unfold by_timestamp; simpl. lia.
  - apply Forall_app; split.
    + eapply Forall_impl; [exact Hbound|]. simpl; intros; lia.
    + repeat constructor. simpl. lia.
Qed.

Lemma chronological_tick w :
  clock_monotone -> chronological w -> chronological (tick w).
Proof.
  intros Hclock [Hsorted Hbound]. split; [done|]. simpl.
  assert (clock (ticks w) <= clock (S (ticks w))) by (apply Hclock; lia).
  eapply Forall_impl; [exact Hbound|]. simpl; intros; lia.
Qed.

Lemma chronological_create_session session_id metadata w :
  clock_monotone -> chronological w ->
  chronological (create_session session_id metadata w).2.
Proof.
  intros Hclock Hw. apply (chronological_tick _ Hclock) in Hw.
  destruct (sessions (db w) !! session_id) as [row|] eqn:Hrow.
  - by rewrite (create_session_present _ _ _ _ Hrow).
  - by rewrite (create_session_absent _ _ _ Hrow).
Qed.

Lemma chronological_delete_session session_id w :
  chronological w -> chronological (delete_session session_id w).2.
Proof.
  intros Hw. rewrite delete_session_eq.
  by destruct (sessions (db w) !! session_id).
Qed.

(** Under a chronological table the SELECT returns the rows of the session
    in the order of the table. *)
Lemma sql_select_messages_chronological session_id w :
  chronological w ->
  sql_select_messages session_id None (db w) =
    filter (fun m => m_session_id m = session_id) (messages (db w)).
Proof.
  intros [Hsorted _]. unfold sql_select_messages.
  apply order_by_timestamp_id. by apply StronglySorted_filter.
Qed.

Lemma sql_select_messages_ascending session_id d :
  ids_increasing d ->
  StronglySorted by_timestamp_id (sql_select_messages session_id None d).
Proof.
  intros [Hsorted _]. unfold sql_select_messages.
  apply order_by_timestamp_stable. by apply StronglySorted_filter.
Qed.

(** ** Sequences of appends *)

Lemma add_messages_returns calls w : (add_messages calls w).1 = Returns tt.
Proof.
  revert w. induction calls as [|c calls IH]; intros w; [done|].
  simpl. unfold bind. rewrite add_message_eq. apply IH.
Qed.

Lemma add_messages_cons c calls w :
  add_messages (c :: calls) w =
    add_messages calls
      (add_message (ap_session_id c) (ap_role c) (ap_content c) (ap_metadata c) w).2.
Proof. simpl. unfold bind. by rewrite add_message_eq. Qed.

Lemma add_messages_ids calls w :
  ids_increasing (db w) -> ids_increasing (db (add_messages calls w).2).
Proof.
  revert w. induction calls as [|c calls IH]; intros w Hids; [done|].
  rewrite add_messages_cons. apply IH. by apply ids_increasing_add_message.
Qed.

Lemma add_messages_invariants calls w :
  clock_monotone -> ids_increasing (db w) -> chronological w ->
  ids_increasing (db (add_messages calls w).2) /\ chronological (add_messages calls w).2.
Proof.
  intros Hclock. revert w.
  induction calls as [|c calls IH]; intros w Hids Hchron; [done|].
  rewrite add_messages_cons. apply IH.
  - by apply ids_increasing_add_message.
  - by apply chronological_add_message.
Qed.

Lemma add_messages_turns session_id calls w :
  row_turn <$> filter (fun m => m_session_id m = session_id)
                 (messages (db (add_messages calls w).2)) =
  (row_turn <$> filter (fun m => m_session_id m = session_id) (messages (db w))) ++
  (call_turn <$> filter (fun c => ap_session_id c = session_id) calls).
Proof.
  revert w. induction calls as [|c calls IH]; intros w.
  - simpl. by rewrite app_nil_r.
  - rewrite add_messages_cons, IH, add_message_eq. simpl.
    rewrite filter_app, fmap_app, <- app_assoc. f_equal.
    rewrite filter_cons. rewrite (filter_cons _ c). simpl.
    destruct (decide (ap_session_id c = session_id)); done.
Qed.


(** ** Claims about the store *)

(** C2, as the code has it.  Whatever sequence of [add_message] calls is
    run on a table in rowid order, whatever the clock does: every call
    returns, and the rows that [get_messages] reads for a session are the
    rows that were there and the appended ones, in strictly ascending order
    of (timestamp, id), the id deciding between equal timestamps.  That
    order is the order of the appends when the clock never goes back and
    the table was in chronological order: then the messages returned are
    those that were there followed by the appended ones in the order of the
    calls. *)
Theorem get_messages_append_order (calls : list Append) (session_id : string) (w : World) :
  ids_increasing (db w) ->
  let w' := (add_messages calls w).2 in
  (add_messages calls w).1 = Returns tt /\
  StronglySorted by_timestamp_id (sql_select_messages session_id None (db w')) /\
  (get_messages session_id None w').1 =
    Returns (message_dict <$> sql_select_messages session_id None (db w')) /\
  row_turn <$> sql_select_messages session_id None (db w') ≡ₚ
    (row_turn <$> sql_select_messages session_id None (db w)) ++
    (call_turn <$> filter (fun c => ap_session_id c = session_id) calls) /\
  (clock_monotone -> chronological w ->
   row_turn <$> sql_select_messages session_id None (db w') =
     (row_turn <$> sql_select_messages session_id None (db w)) ++
     (call_turn <$> filter (fun c => ap_session_id c = session_id) calls)).
Proof.
  intros Hids w'.
  split; [apply add_messages_returns|].
  split; [apply sql_select_messages_ascending, add_messages_ids, Hids|].
  split; [done|].
  split.
  - unfold sql_select_messages. rewrite !order_by_timestamp_perm.
    subst w'. by rewrite add_messages_turns.
  - intros Hclock Hchron.
    destruct (add_messages_invariants calls w Hclock Hids Hchron) as [_ Hchron'].
    rewrite (sql_select_messages_chronological _ _ Hchron').
    rewrite (sql_select_messages_chronological _ _ Hchron).
    apply add_messages_turns.
Qed.

(** C6.  [create_session] never raises.  On an id that has no row it
    returns [True] and inserts the row; on an id that has one it returns
    [False] and leaves the database as it is.  A second call returns [False],
    and after [delete_session] a third call returns [True] again. *)
Theorem create_session_idempotent (session_id : string)
    (md1 md2 md3 : option Dict) (w : World) :
  let r1 := create_session session_id md1 w in
  let r2 := create_session session_id md2 r1.2 in
  let r3 := delete_session session_id r2.2 in
  let r4 := create_session session_id md3 r3.2 in
  match sessions (db w) !! session_id with
  | None =>
      r1.1 = Returns true /\
      sessions (db r1.2) =
        <[session_id := fresh_session (clock (ticks w)) (or_empty md1)]> (sessions (db w)) /\
      messages (db r1.2) = messages (db w)
  | Some _ => r1.1 = Returns false /\ db r1.2 = db w
  end /\
  r2.1 = Returns false /\ db r2.2 = db r1.2 /\
  r3.1 = Returns true /\
  r4.1 = Returns true.
Proof.
  intros r1 r2 r3 r4.
  assert (Hafter : is_Some (sessions (db r1.2) !! session_id)).
  { subst r1. destruct (sessions (db w) !! session_id) as [row|] eqn:Hrow.
    - rewrite (create_session_present _ _ _ _ Hrow). simpl. by rewrite Hrow.
    - rewrite (create_session_absent _ _ _ Hrow). simpl.
      rewrite lookup_insert_eq. by eexists. }
  destruct Hafter as [row1 Hrow1].
  assert (Hr2 : r2 = (Returns false, tick r1.2)).
  { subst r2. by rewrite (create_session_present _ _ _ _ Hrow1). }
  assert (Hr3 : r3.1 = Returns true /\ sessions (db r3.2) !! session_id = None).
  { subst r3. rewrite delete_session_eq, Hr2. simpl. rewrite Hrow1. simpl.
    split; [done|]. apply lookup_delete_eq. }
  destruct Hr3 as [Hr3 Hgone].
  repeat split.
  - subst r1. destruct (sessions (db w) !! session_id) as [row|] eqn:Hrow.
    + by rewrite (create_session_present _ _ _ _ Hrow).
    + by rewrite (create_session_absent _ _ _ Hrow).
  - by rewrite Hr2.
  - by rewrite Hr2.
  - exact Hr3.
  - subst r4. by rewrite (create_session_absent _ _ _ Hgone).
Qed.


(** C8, as the code has it.  The messages that [get_messages] returns
    without a limit are in ascending order of timestamp.  With a positive
    limit [n] that fits an SQLite INTEGER, below 2^63, it returns the first
    [n] of them: the oldest [n]; when [n] is at least their number it
    returns them all.  A limit of 2^63 or more cannot be bound: the call
    raises [OverflowError] and returns nothing. *)
Theorem get_messages_limit_earliest (session_id : string) (n : Z) (w : World) :
  0 < n ->
  let everything := sql_select_messages session_id None (db w) in
  StronglySorted by_timestamp everything /\
  get_messages session_id None w = (Returns (message_dict <$> everything), w) /\
  (n < 2 ^ 63 ->
   get_messages session_id (Some n) w =
     (Returns (message_dict <$> take (Z.to_nat n) everything), w) /\
   (Z.of_nat (length everything) <= n ->
    get_messages session_id (Some n) w = get_messages session_id None w)) /\
  (2 ^ 63 <= n ->
   get_messages session_id (Some n) w = (Raises int_too_large, w)).
Proof.
  intros Hn everything.
  assert (Htruthy : truthy_limit (Some n) = Some n).
  { unfold truthy_limit. destruct (Z.eqb_spec n 0); [lia|done]. }
  split; [apply order_by_timestamp_sorted|].
  split; [done|].
  split.
  - intros Hfits.
    assert (Hlimit : get_messages session_id (Some n) w =
              (Returns (message_dict <$> take (Z.to_nat n) everything), w)).
    { rewrite get_messages_eq, Htruthy.
      assert (Hint : int64 n = true).
      { unfold int64. apply andb_true_intro. split; [apply Z.leb_le|apply Z.ltb_lt]; lia. }
      rewrite Hint. unfold sql_select_messages, sql_limit.
      destruct (Z.ltb_spec n 0); [lia|]. done. }
    split; [exact Hlimit|].
    intros Hlen. rewrite Hlimit, take_ge by lia. done.
  - intros Hlarge. rewrite get_messages_eq, Htruthy.
    assert (Hint : int64 n = false).
    { unfold int64. apply andb_false_intro2. apply Z.ltb_ge. lia. }
    by rewrite Hint.
Qed.

(** C9.  [get_messages] with [limit=0] returns what it returns without a
    limit: every message of the session, as many as [get_session_info]
    counts. *)
Theorem get_messages_limit_zero (session_id : string) (w : World) :
  get_messages session_id (Some 0) w = get_messages session_id None w /\
  get_messages session_id (Some 0) w =
    (Returns (message_dict <$> sql_select_messages session_id None (db w)), w) /\
  Z.of_nat (length (sql_select_messages session_id None (db w))) =
    sql_count_messages session_id (db w).
Proof.
  repeat split.
  unfold sql_select_messages, sql_count_messages.
  by rewrite order_by_timestamp_length.
Qed.

(** The defect behind C1, on any database: when the session has a row,
    [delete_session] returns [True] and the row is gone, and [get_messages]
    returns what it returned before. *)
Lemma delete_session_orphans (session_id : string) (w : World) :
  is_Some (sessions (db w) !! session_id) ->
  let r := delete_session session_id w in
  r.1 = Returns true /\
  (get_session_info session_id r.2).1 = Returns None /\
  (get_messages session_id None r.2).1 = (get_messages session_id None w).1.
Proof.
  intros [row Hrow] r. subst r. rewrite delete_session_eq, Hrow. simpl.
  split; [done|]. split; [|done].
  unfold get_session_info, bind, get_world; simpl.
  by rewrite lookup_delete_eq.
Qed.

(** What the schema asks for: on a connection with foreign keys on, the
    same DELETE takes the messages of the session with it. *)
Lemma sql_delete_session_cascade (session_id : string) (w : World) :
  let r := sql_delete_session {| foreign_keys := true |} session_id w in
  is_Some (sessions (db w) !! session_id) ->
  sessions (db r.2) !! session_id = None /\
  sql_select_messages session_id None (db r.2) = [].
Proof.
  intros r [row Hrow]. subst r.
  unfold sql_delete_session, bind, get_world; simpl. rewrite Hrow. simpl.
  split; [apply lookup_delete_eq|].
  unfold sql_select_messages; simpl.
  rewrite list_filter_filter.
  assert (Hnone : filter (fun m => m_session_id m = session_id /\ m_session_id m <> session_id)
                    (messages (db w)) = []).
  { induction (messages (db w)) as [|m l IH]; [done|].
    rewrite filter_cons_False; [exact IH|]. tauto. }
  by rewrite Hnone.
Qed.


(** ** The handlers, step by step *)

Lemma resolve_session_eq session_id w :
  resolve_session session_id w = (Returns tt, resolved session_id w).
Proof.
  unfold resolve_session, resolved, get_session_info, bind at 1 2, get_world; simpl.
  destruct (sessions (db w) !! session_id) as [row|] eqn:Hrow; simpl; [done|].
  unfold bind. by rewrite (create_session_absent _ _ _ Hrow).
Qed.

Lemma get_agent_eq temperature max_tokens w :
  get_agent temperature max_tokens w =
    (Returns (the_agent temperature max_tokens w),
     agent_installed temperature max_tokens w).
Proof.
  unfold get_agent, agent_installed, the_agent, bind, get_world; simpl.
  destruct (agent w) as [a|]; reflexivity.
Qed.

Lemma agent_resolved session_id w : agent (resolved session_id w) = agent w.
Proof. unfold resolved. by destruct (sessions (db w) !! session_id). Qed.

Lemma constructed_resolved session_id w :
  constructed (resolved session_id w) = constructed w.
Proof. unfold resolved. by destruct (sessions (db w) !! session_id). Qed.

Lemma db_agent_installed temperature max_tokens w :
  db (agent_installed temperature max_tokens w) = db w /\
  ticks (agent_installed temperature max_tokens w) = ticks w.
Proof. unfold agent_installed. by destruct (agent w). Qed.

Lemma agent_agent_installed temperature max_tokens w :
  agent (agent_installed temperature max_tokens w) =
    Some (the_agent temperature max_tokens w).
Proof. unfold agent_installed, the_agent. by destruct (agent w) eqn:Ha. Qed.

(** The agent of a request is decided by the global and the construction
    count alone, which the store never touches. *)
Lemma the_agent_after_user_message request w :
  the_agent (req_temperature request) (req_max_tokens request)
    (appended (req_session_id request) "user" (req_message request) None
       (resolved (req_session_id request) w)) =
  chat_agent_of request w.
Proof.
  unfold chat_agent_of, the_agent; simpl.
  by rewrite agent_resolved, constructed_resolved.
Qed.

Lemma chat_eq request w :
  chat request w =
    let result := run (chat_agent_of request w) (req_message request)
                    (chat_history_of request w) in
    (Returns {| resp_response := output result;
                resp_session_id := req_session_id request;
                resp_tools_used := tools_used result;
                resp_tokens_used := None;
                resp_finish_reason := None |},
     appended (req_session_id request) "assistant" (output result)
       (Some [("tools_used", JList (JStr <$> tools_used result))])
       (user_turn_saved request w)).
Proof.
  unfold chat, try_except, bind at 1.
  rewrite resolve_session_eq.
  unfold bind at 1. rewrite get_messages_unlimited.
  unfold bind at 1. rewrite add_message_eq.
  unfold bind at 1. rewrite get_agent_eq.
  unfold bind at 1. rewrite add_message_eq.
  rewrite the_agent_after_user_message.
  reflexivity.
Qed.

Lemma chat_stream_eq request w :
  chat_stream request w =
    (Returns (generate request (chat_agent_of request w) (chat_history_of request w)),
     user_turn_saved request w).
Proof.
  unfold chat_stream, try_except, bind at 1.
  rewrite resolve_session_eq.
  unfold bind at 1. rewrite get_messages_unlimited.
  unfold bind at 1. rewrite add_message_eq.
  unfold bind at 1. rewrite get_agent_eq.
  rewrite the_agent_after_user_message.
  reflexivity.
Qed.

(** ** The generator *)

Lemma string_app_assoc (a b c : string) : (a +:+ b) +:+ c = a +:+ (b +:+ c).
Proof.
  induction a as [|ch a IH]; [done|].
  change (String ch ((a +:+ b) +:+ c) = String ch (a +:+ (b +:+ c))).
  by rewrite IH.
Qed.

Lemma string_app_nil_r (a : string) : a +:+ "" = a.
Proof.
  induction a as [|ch a IH]; [done|].
  change (String ch (a +:+ "") = String ch a). by rewrite IH.
Qed.

Lemma join_app (a b : list string) : join (a ++ b) = join a +:+ join b.
Proof.
  induction a as [|c a IH]; [done|].
  simpl. change (c +:+ join (a ++ b) = (c +:+ join a) +:+ join b).
  by rewrite IH, string_app_assoc.
Qed.

Lemma join_singleton (c : string) : join [c] = c.
Proof. apply string_app_nil_r. Qed.

Lemma generate_anext_chunk session_id acc chunk rest stop w :
  generate_anext (in_loop session_id acc (chunk :: rest) stop) w =
    (Returns (Some (sse_frame chunk), in_loop session_id (acc +:+ chunk) rest stop), w).
Proof. reflexivity. Qed.

Lemma generate_anext_done session_id acc w :
  generate_anext (in_loop session_id acc [] GenReturns) w =
    (Returns (Some done_frame, at_done session_id acc),
     appended session_id "assistant" acc None w).
Proof.
  unfold generate_anext; simpl. unfold bind. by rewrite add_message_eq.
Qed.

Lemma generate_anext_raises session_id acc e w :
  generate_anext (in_loop session_id acc [] (GenRaises e)) w = (Raises e, w).
Proof. reflexivity. Qed.

Lemma stream_response_S patience g w :
  stream_response (S patience) g w =
    match generate_anext g w with
    | (Returns (None, _), w') => (Returns ([], true), w')
    | (Returns (Some frame, g'), w') =>
        match stream_response patience g' w' with
        | (Returns r, w'') => (Returns (frame :: r.1, r.2), w'')
        | (Raises e, w'') => (Raises e, w'')
        end
    | (Raises e, w') => (Raises e, w')
    end.
Proof.
  simpl. unfold bind at 1.
  destruct (generate_anext g w) as [[[[frame|] g']|e] w']; reflexivity.
Qed.

(** A client that leaves while chunks are still to come: the frames of the
    chunks it took, and the process as it was. *)
Lemma stream_response_leaves session_id stop pending acc patience w :
  (patience <= length pending)%nat ->
  stream_response patience (in_loop session_id acc pending stop) w =
    (Returns (sse_frame <$> take patience pending, false), w).
Proof.
  revert pending acc.
  induction patience as [|k IH]; intros pending acc Hk; [done|].
  destruct pending as [|chunk rest]; simpl in Hk; [lia|].
  rewrite stream_response_S, generate_anext_chunk, IH by lia. done.
Qed.

(** A stream that returns, taken to its last frame: all the chunks, then
    the marker, and one [add_message] with the text of all the chunks. *)
Lemma stream_response_completes session_id pending acc patience w :
  (length pending < patience)%nat ->
  stream_response patience (in_loop session_id acc pending GenReturns) w =
    (Returns ((sse_frame <$> pending) ++ [done_frame],
              bool_decide (S (length pending) < patience)%nat),
     appended session_id "assistant" (acc +:+ join pending) None w).
Proof.
  revert pending acc.
  induction patience as [|k IH]; intros pending acc Hk; [lia|].
  destruct pending as [|chunk rest].
  - rewrite stream_response_S, generate_anext_done.
    simpl. rewrite string_app_nil_r.
    destruct k as [|k]; reflexivity.
  - simpl in Hk.
    rewrite stream_response_S, generate_anext_chunk, IH by lia. simpl.
    rewrite string_app_assoc.
    do 2 f_equal. f_equal.
    apply bool_decide_ext. lia.
Qed.

(** A stream that is cancelled, taken past its last chunk: the exception
    leaves the generator and the process is as it was. *)
Lemma stream_response_cancelled session_id e pending acc patience w :
  (length pending < patience)%nat ->
  stream_response patience (in_loop session_id acc pending (GenRaises e)) w =
    (Raises e, w).
Proof.
  revert pending acc.
  induction patience as [|k IH]; intros pending acc Hk; [lia|].
  destruct pending as [|chunk rest].
  - by rewrite stream_response_S, generate_anext_raises.
  - simpl in Hk.
    by rewrite stream_response_S, generate_anext_chunk, IH by lia.
Qed.


Lemma serve_chat_stream_eq request patience w :
  serve_chat_stream request patience w =
    stream_response patience
      (in_loop (req_session_id request) "" (produced_for request w).1
         (produced_for request w).2)
      (user_turn_saved request w).
Proof.
  unfold serve_chat_stream, bind. by rewrite chat_stream_eq.
Qed.

Lemma chat_agent_of_initialised request a w :
  agent w = Some a -> chat_agent_of request w = a.
Proof. intros Ha. unfold chat_agent_of, the_agent. by rewrite Ha. Qed.

Lemma user_turn_saved_initialised request a w :
  agent w = Some a ->
  user_turn_saved request w =
    appended (req_session_id request) "user" (req_message request) None
      (resolved (req_session_id request) w).
Proof.
  intros Ha. unfold user_turn_saved, agent_installed; simpl.
  by rewrite agent_resolved, Ha.
Qed.

Lemma agent_user_turn_saved request w :
  agent (user_turn_saved request w) = Some (chat_agent_of request w).
Proof.
  unfold user_turn_saved. rewrite agent_agent_installed.
  by rewrite the_agent_after_user_message.
Qed.

(** ** Claims about the handlers *)

(** C3, as the code has it.  When the client leaves before the generator
    has been resumed past its last chunk, or the producer is cancelled, the
    process is left as it was when the user message had been saved: no
    assistant message is appended.  An [Exception] of the producer is not
    such an interruption: [astream] turns it into a last chunk
    ["Error: <description>"], the stream ends as usual, and a client that
    stays gets the marker after an assistant message holding every chunk,
    that last one included, has been appended. *)
Theorem chat_stream_cancelled_drops_turn (request : ChatRequest) (w : World) :
  (forall patience : nat,
     ((patience <= length (produced_for request w).1)%nat \/
      (produced_for request w).2 = GenRaises CancelledError) ->
     (serve_chat_stream request patience w).2 = user_turn_saved request w) /\
  (forall description : string,
     s_end (agent_executor_astream (chat_agent_of request w) (req_message request)
              (format_chat_history (chat_history_of request w))) =
       RaisesException description ->
     exists yielded,
       (produced_for request w).1 = yielded ++ ["Error: " +:+ description] /\
       forall k, (length (produced_for request w).1 < k)%nat ->
         messages (db (serve_chat_stream request k w).2) =
           messages (db (user_turn_saved request w)) ++
           [new_message (db (user_turn_saved request w))
              (clock (S (S (ticks (user_turn_saved request w)))))
              (req_session_id request) "assistant"
              (join yielded +:+ "Error: " +:+ description) None]).
Proof.
  split.
  - intros patience Hinterrupted.
    rewrite serve_chat_stream_eq.
    destruct (le_lt_dec patience (length (produced_for request w).1)) as [Hshort|Hlong].
    + by rewrite stream_response_leaves.
    + destruct Hinterrupted as [Hshort|Hcancel]; [lia|].
      rewrite Hcancel. by rewrite stream_response_cancelled.
  - intros description Hfault.
    unfold produced_for at 1, astream. rewrite Hfault. simpl.
    eexists; split; [reflexivity|].
    intros k Hk. rewrite serve_chat_stream_eq.
    assert (Hprod : produced_for request w =
      (concat (yields_of_chunk <$>
         s_chunks (agent_executor_astream (chat_agent_of request w)
                     (req_message request)
                     (format_chat_history (chat_history_of request w)))) ++
       ["Error: " +:+ description], GenReturns)).
    { unfold produced_for, astream. by rewrite Hfault. }
    rewrite Hprod in Hk |- *. simpl in Hk |- *.
    rewrite stream_response_completes by exact Hk. simpl.
    do 2 f_equal. unfold new_message. f_equal.
    by rewrite join_app, join_singleton.
Qed.


(** C4.  When the chunk sequence of a streaming request ends by itself:
    as long as the client has taken only chunk frames, it has the frames of
    the chunks so far and nothing has been appended; the resumption after
    the last chunk appends one assistant message, whose content is the text
    of all the chunks, and only then yields the end-of-stream frame. *)
Theorem chat_stream_persists_on_completion (request : ChatRequest) (w : World) :
  (produced_for request w).2 = GenReturns ->
  let chunks := (produced_for request w).1 in
  let saved := user_turn_saved request w in
  let final := appended (req_session_id request) "assistant" (join chunks) None saved in
  (forall k, (k <= length chunks)%nat ->
     serve_chat_stream request k w =
       (Returns (sse_frame <$> take k chunks, false), saved)) /\
  (forall k, (length chunks < k)%nat ->
     serve_chat_stream request k w =
       (Returns ((sse_frame <$> chunks) ++ [done_frame],
                 bool_decide (S (length chunks) < k)%nat), final)) /\
  generate_anext (in_loop (req_session_id request) (join chunks) [] GenReturns) saved =
    (Returns (Some done_frame, at_done (req_session_id request) (join chunks)), final) /\
  messages (db final) =
    messages (db saved) ++
    [{| m_id := sqlite_sequence (db saved) + 1;
        m_session_id := req_session_id request;
        m_role := "assistant";
        m_content := join chunks;
        m_timestamp := clock (S (S (ticks saved)));
        m_metadata := [] |}].
Proof.
  intros Hreturns chunks saved final.
  split; [|split; [|split]].
  - intros k Hk. rewrite serve_chat_stream_eq.
    by rewrite stream_response_leaves.
  - intros k Hk. rewrite serve_chat_stream_eq, Hreturns.
    by rewrite stream_response_completes.
  - apply generate_anext_done.
  - reflexivity.
Qed.

(** C5.  When the invocation of the agent made by a [/chat] request raises
    an [Exception] with the given description, the handler returns (status
    200) a response whose text is the apology built around the description
    and whose [tools_used] is empty, and the last row of [messages] is the
    assistant message of the session with that same text. *)
Theorem chat_agent_failure_is_apology (request : ChatRequest)
    (description : string) (w : World) :
  agent_executor_invoke (chat_agent_of request w) (req_message request)
    (format_chat_history (chat_history_of request w)) = inl description ->
  let apology := "I encountered an error: " +:+ description +:+ ". Please try again." in
  let saved := user_turn_saved request w in
  let r := chat request w in
  r.1 = Returns {| resp_response := apology;
                   resp_session_id := req_session_id request;
                   resp_tools_used := [];
                   resp_tokens_used := None;
                   resp_finish_reason := None |} /\
  http_status r.1 = 200 /\
  messages (db r.2) =
    messages (db saved) ++
    [{| m_id := sqlite_sequence (db saved) + 1;
        m_session_id := req_session_id request;
        m_role := "assistant";
        m_content := apology;
        m_timestamp := clock (S (S (ticks saved)));
        m_metadata := [("tools_used", JList [])] |}].
Proof.
  intros Hfails apology saved r. subst r.
  rewrite chat_eq. unfold run. rewrite Hfails. simpl.
  repeat split.
Qed.

(** C10.  Once the global [agent] holds an instance, [get_agent] returns it
    and changes nothing, whatever its arguments; a [/chat] or [/chat/stream]
    request then does and answers the same whatever its [temperature] and
    [max_tokens], and leaves that instance in place.  Any request leaves an
    instance in the global. *)
Theorem get_agent_ignores_overrides (a : ChatAgent) (w : World) :
  agent w = Some a ->
  (forall temperature max_tokens,
     get_agent temperature max_tokens w = (Returns a, w)) /\
  (forall request temperature max_tokens,
     chat (with_overrides request temperature max_tokens) w = chat request w /\
     agent (chat request w).2 = Some a) /\
  (forall request temperature max_tokens patience,
     serve_chat_stream (with_overrides request temperature max_tokens) patience w =
       serve_chat_stream request patience w) /\
  (forall request w0, is_Some (agent (chat request w0).2)) /\
  (forall request w0, is_Some (agent (chat_stream request w0).2)).
Proof.
  intros Ha.
  assert (Hagent : forall request t m,
            chat_agent_of (with_overrides request t m) w = chat_agent_of request w).
  { intros. by rewrite !(chat_agent_of_initialised _ a). }
  assert (Hsaved : forall request t m,
            user_turn_saved (with_overrides request t m) w = user_turn_saved request w).
  { intros. by rewrite !(user_turn_saved_initialised _ a). }
  split; [|split; [|split; [|split]]].
  - intros t m. rewrite get_agent_eq.
    unfold the_agent, agent_installed. by rewrite Ha.
  - intros request t m. split.
    + rewrite !chat_eq. rewrite Hagent, Hsaved. reflexivity.
    + rewrite chat_eq. simpl.
      by rewrite agent_user_turn_saved, (chat_agent_of_initialised _ a).
  - intros request t m k.
    rewrite !serve_chat_stream_eq. unfold produced_for.
    rewrite Hagent, Hsaved. reflexivity.
  - intros request w0. rewrite chat_eq. simpl.
    rewrite agent_user_turn_saved. by eexists.
  - intros request w0. rewrite chat_stream_eq. simpl.
    rewrite agent_user_turn_saved. by eexists.
Qed.

(** * Further properties of the code *)

(** ** Listing the sessions *)

Lemma insert_by_updated_at_perm x l : insert_by_updated_at x l ≡ₚ x :: l.
Proof.
  induction l as [|y l IH]; simpl; [done|].
  destruct (s_updated_at y.2 <=? s_updated_at x.2); [done|].
  rewrite IH. apply Permutation_swap.
Qed.

Lemma order_by_updated_at_desc_perm l : order_by_updated_at_desc l ≡ₚ l.
Proof.
  induction l as [|x l IH]; simpl; [done|].
  by rewrite insert_by_updated_at_perm, IH.
Qed.

Lemma insert_by_updated_at_sorted x l :
  StronglySorted row_newest_first l ->
  StronglySorted row_newest_first (insert_by_updated_at x l).
Proof.
  induction l as [|y l IH]; simpl; intros Hl.
  - repeat constructor.
  - apply StronglySorted_cons in Hl as [Hy Hl].
    destruct (Z.leb_spec (s_updated_at y.2) (s_updated_at x.2)) as [Hle|Hgt].
    + apply StronglySorted_cons; split; [|by apply StronglySorted_cons].
      constructor; [exact Hle|].
      eapply Forall_impl; [exact Hy|]. unfold row_newest_first; intros; lia.
    + apply StronglySorted_cons; split; [|by apply IH].
      rewrite insert_by_updated_at_perm. constructor; [|exact Hy].
      unfold row_newest_first; lia.
Qed.

Lemma order_by_updated_at_desc_sorted l :
  StronglySorted row_newest_first (order_by_updated_at_desc l).
Proof.
  induction l as [|x l IH]; simpl; [constructor|].
  by apply insert_by_updated_at_sorted.
Qed.

Lemma StronglySorted_sublist {A} (R : relation A) (l1 l2 : list A) :
  l1 `sublist_of` l2 -> StronglySorted R l2 -> StronglySorted R l1.
Proof.
  induction 1 as [|x l1 l2 Hsub IH|x l1 l2 Hsub IH]; intros Hl2; [done| |].
  - apply StronglySorted_cons in Hl2 as [Hx Hl2].
    apply StronglySorted_cons; split; [|by apply IH].
    apply Forall_forall. intros y Hy. rewrite Forall_forall in Hx.
    apply Hx. by eapply elem_of_sublist.
  - apply StronglySorted_cons in Hl2 as [_ Hl2]. by apply IH.
Qed.

Lemma sql_page_sublist {A} (limit offset : Z) (rows : list A) :
  sql_limit limit (sql_offset offset rows) `sublist_of` rows.
Proof.
  unfold sql_limit, sql_offset.
  destruct (limit <? 0).
  - apply sublist_drop.
  - etrans; [apply sublist_take|apply sublist_drop].
Qed.

Lemma int64_true n : - 2 ^ 63 <= n < 2 ^ 63 -> int64 n = true.
Proof.
  intros Hn. unfold int64.
  apply andb_true_intro. split; [apply Z.leb_le|apply Z.ltb_lt]; lia.
Qed.

Lemma int64_false n : n < - 2 ^ 63 \/ 2 ^ 63 <= n -> int64 n = false.
Proof.
  intros Hn. unfold int64. apply andb_false_iff.
  destruct Hn; [left; apply Z.leb_gt|right; apply Z.ltb_ge]; lia.
Qed.

Lemma list_sessions_eq limit offset w :
  list_sessions limit offset w =
    if int64 limit && int64 offset
    then (Returns (sql_limit limit (sql_offset offset (all_sessions limit offset (db w)))), w)
    else (Raises int_too_large, w).
Proof.
  unfold list_sessions, sqlite3_bind_int, all_sessions, bind, get_world, ret, raise.
  destruct (int64 limit); [|done].
  destruct (int64 offset); [|done].
  unfold sql_limit, sql_offset; simpl.
  destruct (limit <? 0); by rewrite ?fmap_take, fmap_drop.
Qed.

Lemma all_sessions_elem limit offset d info :
  info ∈ all_sessions limit offset d <->
  exists sid row, sessions d !! sid = Some row /\ info = session_info d (sid, row).
Proof.
  unfold all_sessions. rewrite list_elem_of_fmap.
  setoid_rewrite order_by_updated_at_desc_perm.
  setoid_rewrite sessions_scan_perm.
  split.
  - intros [[sid row] [-> Hin]]. apply elem_of_map_to_list in Hin. eauto.
  - intros (sid & row & Hrow & ->). exists (sid, row).
    split; [done|]. by apply elem_of_map_to_list.
Qed.

Lemma all_sessions_ids limit offset d :
  i_session_id <$> all_sessions limit offset d ≡ₚ (map_to_list (sessions d)).*1.
Proof.
  unfold all_sessions. rewrite <- list_fmap_compose.
  rewrite order_by_updated_at_desc_perm, sessions_scan_perm. done.
Qed.

Lemma all_sessions_length limit offset d :
  length (all_sessions limit offset d) = size (sessions d).
Proof.
  unfold all_sessions.
  rewrite length_fmap, order_by_updated_at_desc_perm, sessions_scan_perm.
  apply length_map_to_list.
Qed.

Lemma all_sessions_sorted limit offset d :
  StronglySorted newest_first (all_sessions limit offset d).
Proof.
  unfold all_sessions.
  apply (StronglySorted_fmap _ row_newest_first newest_first).
  - intros a b Hab. exact Hab.
  - apply order_by_updated_at_desc_sorted.
Qed.



(** X1.  Whatever order the engine reads the table in, a listing with a
    limit and an offset that fit an SQLite INTEGER (from -2^63 to 2^63 - 1)
    is in descending order of [updated_at], names no session twice, holds
    for each session it names what [get_session_info] returns for it, and
    with a limit that is not negative has at most that many entries; with a
    limit or an offset outside that range the call raises [OverflowError].
    The process is left as it was either way. *)
Theorem list_sessions_newest_first (limit offset : Z) (w : World) :
  if int64 limit && int64 offset then
    exists page,
      list_sessions limit offset w = (Returns page, w) /\
      StronglySorted newest_first page /\
      NoDup (i_session_id <$> page) /\
      (forall info, info ∈ page ->
         get_session_info (i_session_id info) w = (Returns (Some info), w)) /\
      (0 <= limit -> Z.of_nat (length page) <= limit)
  else list_sessions limit offset w = (Raises int_too_large, w).
Proof.
  rewrite list_sessions_eq.
  destruct (int64 limit && int64 offset); [|done].
  eexists; split; [reflexivity|].
  pose proof (sql_page_sublist limit offset (all_sessions limit offset (db w))) as Hsub.
  split; [|split; [|split]].
  - eapply StronglySorted_sublist; [exact Hsub|apply all_sessions_sorted].
  - apply (sublist_NoDup _ (i_session_id <$> all_sessions limit offset (db w))).
    + rewrite all_sessions_ids. apply NoDup_fst_map_to_list.
    + by apply fmap_sublist.
  - intros info Hin.
    pose proof (elem_of_sublist _ _ _ Hin Hsub) as Hall.
    apply all_sessions_elem in Hall as (sid & row & Hrow & Hinfo).
    subst info.
    unfold get_session_info, bind, get_world; simpl. by rewrite Hrow.
  - intros Hlimit. unfold sql_limit.
    destruct (Z.ltb_spec limit 0); [lia|].
    rewrite length_take. lia.
Qed.


(** X3.  [GET /sessions] with a limit and an offset that fit an SQLite
    INTEGER (from -2^63 to 2^63 - 1) answers 200, and the [total] of its
    answer is the number of sessions on the page it returns, not the number
    of sessions in the table: with a limit and an offset that are not
    negative, the smaller of the limit and of what the table holds past the
    offset.  With a limit or an offset outside that range it answers 500,
    the detail carrying the text of the [OverflowError].  The process is
    left as it was either way. *)
Theorem api_list_sessions_total (limit offset : Z) (w : World) :
  if int64 limit && int64 offset then
    exists response,
      api_list_sessions limit offset w = (Returns response, w) /\
      slr_total response = Z.of_nat (length (slr_sessions response)) /\
      (0 <= limit -> 0 <= offset ->
       slr_total response =
         Z.min limit (Z.max 0 (Z.of_nat (size (sessions (db w))) - offset)))
  else
    api_list_sessions limit offset w =
      (Raises (HTTPException 500
         "Session listing error: Python int too large to convert to SQLite INTEGER"), w).
Proof.
  unfold api_list_sessions, try_except, bind.
  rewrite list_sessions_eq.
  destruct (int64 limit && int64 offset); [|done].
  simpl.
  eexists; split; [reflexivity|]. simpl.
  split; [done|].
  intros Hlimit Hoffset.
  unfold sql_limit, sql_offset.
  destruct (Z.ltb_spec limit 0); [lia|].
  rewrite length_fmap, length_take, length_drop, all_sessions_length. lia.
Qed.

(** ** Sweeping old sessions *)

Lemma clear_old_sessions_eq days w :
  clear_old_sessions days w =
    if int64 days then
      let cutoff := datetime_days_ago (clock (ticks w)) days in
      (Returns (Z.of_nat (size (filter (older_than cutoff) (sessions (db w))))),
       set_db {| sessions := filter (fun entry => ~ older_than cutoff entry)
                               (sessions (db w));
                 messages := messages (db w);
                 sqlite_sequence := sqlite_sequence (db w) |} (tick w))
    else (Raises int_too_large, w).
Proof.
  unfold clear_old_sessions, sqlite3_bind_int, bind.
  by destruct (int64 days).
Qed.

Lemma size_filter_complement (P : string * SessionRow -> Prop)
    `{!forall x, Decision (P x)} (ss : gmap string SessionRow) :
  (size (filter P ss) + size (filter (fun x => ~ P x) ss))%nat = size ss.
Proof.
  rewrite <- map_size_disj_union by apply map_disjoint_filter_complement.
  by rewrite map_filter_union_complement.
Qed.

(** X4.  [clear_old_sessions] with a number of days that is not negative
    and fits an SQLite INTEGER (is below 2^63) keeps exactly the sessions
    whose [updated_at] is not before the instant that many days (of 86400
    seconds) ahead of its reading of the clock, returns the number of
    sessions it removed, and removes no message: the messages of the
    sessions it removed are still returned by [get_messages]. *)
Theorem clear_old_sessions_sweeps (days : Z) (w : World) :
  0 <= days -> days < 2 ^ 63 ->
  let cutoff := clock (ticks w) - 86400 * days in
  let r := clear_old_sessions days w in
  (forall sid row,
     sessions (db r.2) !! sid = Some row <->
     sessions (db w) !! sid = Some row /\ cutoff <= s_updated_at row) /\
  r.1 = Returns (Z.of_nat (size (sessions (db w))) -
                 Z.of_nat (size (sessions (db r.2)))) /\
  messages (db r.2) = messages (db w) /\
  (forall sid limit, (get_messages sid limit r.2).1 = (get_messages sid limit w).1).
Proof.
  intros Hdays Hfits cutoff r. subst r. rewrite clear_old_sessions_eq.
  rewrite int64_true by lia.
  assert (Hcutoff : datetime_days_ago (clock (ticks w)) days = Some cutoff).
  { unfold datetime_days_ago. by destruct (Z.ltb_spec days 0); [lia|]. }
  rewrite Hcutoff.
  cbn [fst snd db sessions messages set_db tick].
  split; [|split; [|split]].
  - intros sid row. rewrite map_lookup_filter_Some.
    unfold older_than. cbn [snd]. intuition lia.
  - f_equal.
    pose proof (size_filter_complement (older_than (Some cutoff)) (sessions (db w))).
    lia.
  - done.
  - intros sid limit. by apply get_messages_same_rows.
Qed.

(** X5.  [clear_old_sessions] with a negative number of days that fits an
    SQLite INTEGER (is at least -2^63) removes nothing and returns 0.  With
    a number of days outside the range of an SQLite INTEGER, below -2^63 or
    at least 2^63, it raises [OverflowError] and leaves the process as it
    was. *)
Theorem clear_old_sessions_negative_days (days : Z) (w : World) :
  (- 2 ^ 63 <= days < 0 ->
   (clear_old_sessions days w).1 = Returns 0 /\
   db (clear_old_sessions days w).2 = db w) /\
  (days < - 2 ^ 63 \/ 2 ^ 63 <= days ->
   clear_old_sessions days w = (Raises int_too_large, w)).
Proof.
  split.
  - intros Hdays. rewrite clear_old_sessions_eq.
    rewrite int64_true by lia.
    assert (Hcutoff : datetime_days_ago (clock (ticks w)) days = None).
    { unfold datetime_days_ago. by destruct (Z.ltb_spec days 0); [|lia]. }
    rewrite Hcutoff.
    cbn [fst snd db sessions messages set_db tick].
    assert (Hkept : filter (fun entry => ~ older_than None entry) (sessions (db w)) =
                    sessions (db w)).
    { apply map_filter_id. intros sid row _. simpl. tauto. }
    assert (Hnone : filter (older_than None) (sessions (db w)) = ∅).
    { apply map_empty. intros sid. apply map_lookup_filter_None. right.
      intros row _. simpl. tauto. }
    rewrite Hkept, Hnone, map_size_empty.
    split; [done|]. by destruct (db w).
  - intros Hdays. rewrite clear_old_sessions_eq.
    by rewrite int64_false.
Qed.

(** ** The session endpoints *)


(** X7.  [GET /sessions/{id}] and [DELETE /sessions/{id}] answer 404 for an
    id that has no row and change nothing.  For an id that has one, DELETE
    answers 200, and from then on GET and a second DELETE of that id answer
    404. *)
Theorem api_delete_session_then_not_found (session_id : string) (w : World) :
  let not_found := HTTPException 404 "Session not found" in
  match sessions (db w) !! session_id with
  | None =>
      api_get_session session_id w = (Raises not_found, w) /\
      api_delete_session session_id w = (Raises not_found, w)
  | Some row =>
      let r := api_delete_session session_id w in
      api_get_session session_id w =
        (Returns (session_response (session_info (db w) (session_id, row))), w) /\
      r.1 = Returns ("Session " +:+ session_id +:+ " deleted successfully") /\
      api_get_session session_id r.2 = (Raises not_found, r.2) /\
      api_delete_session session_id r.2 = (Raises not_found, r.2)
  end.
Proof.
  intros not_found.
  assert (Habsent : forall w', sessions (db w') !! session_id = None ->
            api_get_session session_id w' = (Raises not_found, w') /\
            api_delete_session session_id w' = (Raises not_found, w')).
  { intros w' Hnone. split.
    - unfold api_get_session, try_except, get_session_info, bind, get_world; simpl.
      by rewrite Hnone.
    - unfold api_delete_session, try_except, bind at 1.
      rewrite delete_session_eq, Hnone. reflexivity. }
  destruct (sessions (db w) !! session_id) as [row|] eqn:Hrow; [|by apply Habsent].
  assert (Hdeleted : api_delete_session session_id w =
            (Returns ("Session " +:+ session_id +:+ " deleted successfully"),
             set_db {| sessions := delete session_id (sessions (db w));
                       messages := messages (db w);
                       sqlite_sequence := sqlite_sequence (db w) |} w)).
  { unfold api_delete_session, try_except, bind at 1.
    rewrite delete_session_eq, Hrow. reflexivity. }
  simpl. rewrite Hdeleted. simpl.
  split; [|split; [done|]].
  - unfold api_get_session, try_except, get_session_info, bind, get_world; simpl.
    by rewrite Hrow.
  - apply Habsent. simpl. apply lookup_delete_eq.
Qed.

(** X8.  A session that is deleted and created again has its old messages
    back: [create_session] returns [True], [get_messages] returns what it
    returned before the deletion, and [get_session_info] counts those
    messages, under the new metadata. *)
Theorem delete_then_create_restores_messages (session_id : string)
    (metadata : option Dict) (w : World) :
  is_Some (sessions (db w) !! session_id) ->
  let deleted := (delete_session session_id w).2 in
  let r := create_session session_id metadata deleted in
  r.1 = Returns true /\
  (forall limit,
     (get_messages session_id limit r.2).1 = (get_messages session_id limit w).1) /\
  (get_session_info session_id r.2).1 =
    Returns (Some {| i_session_id := session_id;
                     i_created_at := clock (ticks w);
                     i_updated_at := clock (ticks w);
                     i_metadata := or_empty metadata;
                     i_message_count := sql_count_messages session_id (db w) |}).
Proof.
  intros [row Hrow] deleted r. subst r deleted.
  rewrite delete_session_eq, Hrow. simpl.
  rewrite create_session_absent by (simpl; apply lookup_delete_eq). simpl.
  split; [done|].
  split; [intros limit; by apply get_messages_same_rows|].
  unfold get_session_info, bind, get_world; simpl.
  by rewrite lookup_insert_eq.
Qed.

(** X9.  Sessions do not touch each other: creating, appending to or
    deleting one session changes neither the messages nor the info that
    are read for another id. *)
Theorem other_session_untouched (session_id other role content : string)
    (metadata : option Dict) (w : World) :
  session_id <> other ->
  forall w',
    w' = (create_session session_id metadata w).2 \/
    w' = (add_message session_id role content metadata w).2 \/
    w' = (delete_session session_id w).2 ->
    (forall limit, (get_messages other limit w').1 = (get_messages other limit w).1) /\
    (get_session_info other w').1 = (get_session_info other w).1.
Proof.
  intros Hother w' Hw'.
  assert (Hframe : sessions (db w') !! other = sessions (db w) !! other /\
                   filter (fun m => m_session_id m = other) (messages (db w')) =
                   filter (fun m => m_session_id m = other) (messages (db w))).
  { destruct Hw' as [->|[->| ->]].
    - destruct (sessions (db w) !! session_id) as [row|] eqn:Hrow.
      + by rewrite (create_session_present _ _ _ _ Hrow).
      + rewrite (create_session_absent _ _ _ Hrow). simpl.
        by rewrite lookup_insert_ne.
    - rewrite add_message_eq. simpl. split.
      + rewrite lookup_alter_ne by done. unfold ensured.
        destruct (sessions (db w) !! session_id); [done|].
        by rewrite lookup_insert_ne.
      + rewrite filter_app, filter_cons_False, filter_nil, app_nil_r by done.
        done.
    - rewrite delete_session_eq.
      destruct (sessions (db w) !! session_id); [|done]. simpl.
      by rewrite lookup_delete_ne. }
  destruct Hframe as [Hsessions Hmessages].
  split.
  - intros limit. by apply get_messages_same_rows.
  - unfold get_session_info, bind, get_world; simpl.
    rewrite Hsessions. unfold sql_count_messages. rewrite Hmessages.
    by destruct (sessions (db w) !! other).
Qed.

(** ** Histories of the store *)

Lemma store_calls_cons c cs w :
  store_calls (c :: cs) w = store_calls cs (store_call c w).2.
Proof. reflexivity. Qed.

(** What [clear_old_sessions] leaves, whether it returned or raised: some
    of the sessions, and the [messages] table as it was. *)
Lemma clear_old_sessions_leaves days w :
  let w' := (store_call (ClearOldSessions days) w).2 in
  (w' = w \/
   exists cutoff,
     w' = set_db {| sessions := filter (fun entry => ~ older_than cutoff entry)
                                  (sessions (db w));
                    messages := messages (db w);
                    sqlite_sequence := sqlite_sequence (db w) |} (tick w)).
Proof.
  simpl. unfold bind. rewrite clear_old_sessions_eq.
  destruct (int64 days); [right; by eexists|by left].
Qed.

(** What a call does to the [messages] table and to the id counter. *)
Lemma store_call_messages c w :
  match c with
  | AddMessage session_id role content metadata =>
      messages (db (store_call c w).2) =
        messages (db w) ++
        [new_message (db w) (clock (S (S (ticks w)))) session_id role content metadata] /\
      sqlite_sequence (db (store_call c w).2) = sqlite_sequence (db w) + 1
  | _ =>
      messages (db (store_call c w).2) = messages (db w) /\
      sqlite_sequence (db (store_call c w).2) = sqlite_sequence (db w)
  end.
Proof.
  destruct c as [sid md|sid role content md|sid|days]; [simpl..|cbv beta iota].
  - unfold bind. destruct (sessions (db w) !! sid) as [row|] eqn:Hrow.
    + by rewrite (create_session_present _ _ _ _ Hrow).
    + by rewrite (create_session_absent _ _ _ Hrow).
  - by rewrite add_message_eq.
  - unfold bind. rewrite delete_session_eq.
    by destruct (sessions (db w) !! sid).
  - by destruct (clear_old_sessions_leaves days w) as [->|[cutoff ->]].
Qed.

Lemma store_calls_ids cs w :
  m_id <$> messages (db (store_calls cs w).2) =
    (m_id <$> messages (db w)) ++
    seqZ (sqlite_sequence (db w) + 1) (Z.of_nat (appends cs)) /\
  sqlite_sequence (db (store_calls cs w).2) =
    sqlite_sequence (db w) + Z.of_nat (appends cs).
Proof.
  revert w. induction cs as [|c cs IH]; intros w.
  - simpl. rewrite seqZ_nil by lia. rewrite app_nil_r. split; [done|lia].
  - rewrite store_calls_cons.
    destruct (IH (store_call c w).2) as [Hids Hseq]. rewrite Hids, Hseq.
    pose proof (store_call_messages c w) as Hc.
    destruct c as [sid md|sid role content md|sid|days];
      destruct Hc as [Hm Hs]; rewrite Hm, Hs;
      try (split; [done|simpl; lia]).
    cbn [appends]. rewrite fmap_app, <- app_assoc. split; [|lia].
    f_equal. cbn [fmap list_fmap new_message m_id].
    rewrite (seqZ_cons _ (Z.of_nat (S (appends cs)))) by lia.
    simpl. do 2 f_equal; lia.
Qed.

(** X10.  Through every history of the store that starts on an empty
    database, whichever of its calls return and whichever raise, the
    [messages] table only grows: it holds one row for each [add_message]
    call ever made, with the ids 1, 2, ... in the order of the calls,
    whatever sessions were deleted or swept in between; so no id is used
    twice. *)
Theorem message_ids_never_reused (cs : list StoreCall) :
  let w := (store_calls cs initial_world).2 in
  m_id <$> messages (db w) = seqZ 1 (Z.of_nat (appends cs)) /\
  sqlite_sequence (db w) = Z.of_nat (appends cs) /\
  NoDup (m_id <$> messages (db w)).
Proof.
  intros w. subst w.
  destruct (store_calls_ids cs initial_world) as [Hids Hseq].
  simpl in Hids, Hseq.
  split; [exact Hids|split; [exact Hseq|]].
  rewrite Hids. apply NoDup_seqZ.
Qed.

Lemma owned_store_call c w :
  removes_nothing c -> owned (db w) -> owned (db (store_call c w).2).
Proof.
  intros Hc Howned. unfold owned in *.
  destruct c as [sid md|sid role content md|sid|days]; simpl in Hc; [| |done|done].
  - simpl. unfold bind.
    destruct (sessions (db w) !! sid) as [row|] eqn:Hrow.
    + by rewrite (create_session_present _ _ _ _ Hrow).
    + rewrite (create_session_absent _ _ _ Hrow). simpl.
      eapply Forall_impl; [exact Howned|]. intros m [row' Hm]. simpl.
      destruct (decide (sid = m_session_id m)) as [->|Hne].
      * rewrite lookup_insert_eq. by eexists.
      * rewrite lookup_insert_ne by done. by eexists.
  - simpl. rewrite add_message_eq. simpl.
    assert (Hkept : forall other,
              is_Some (sessions (db w) !! other) ->
              is_Some (alter (touch (clock (S (ticks w)))) sid
                         (ensured (clock (ticks w)) sid (sessions (db w))) !! other)).
    { intros other [row Hother]. rewrite lookup_alter.
      unfold ensured. destruct (sessions (db w) !! sid) as [old|] eqn:Hold.
      - case_decide; subst; rewrite ?Hother, ?Hold; by eexists.
      - case_decide; subst; [congruence|].
        rewrite lookup_insert_ne by done. rewrite Hother. by eexists. }
    apply Forall_app; split.
    + eapply Forall_impl; [exact Howned|]. intros m Hm. by apply Hkept.
    + repeat constructor. simpl. rewrite lookup_alter_eq.
      unfold ensured. destruct (sessions (db w) !! sid) as [old|] eqn:Hold.
      * rewrite Hold. by eexists.
      * rewrite lookup_insert_eq. by eexists.
Qed.

(** X11.  As long as no session is deleted or swept, every message belongs
    to a session that has a row: creating sessions and appending messages
    keep it so. *)
Theorem messages_owned_without_removal (cs : list StoreCall) (w : World) :
  Forall removes_nothing cs -> owned (db w) ->
  owned (db (store_calls cs w).2).
Proof.
  revert w. induction cs as [|c cs IH]; intros w Hcs Howned; [done|].
  apply Forall_cons in Hcs as [Hc Hcs].
  rewrite store_calls_cons. apply IH; [done|].
  by apply owned_store_call.
Qed.

Lemma session_times_initial : session_times_ordered initial_world.
Proof. intros sid row Hrow. simpl in Hrow. by rewrite lookup_empty in Hrow. Qed.

Lemma session_times_tick w :
  clock_monotone -> session_times_ordered w -> session_times_ordered (tick w).
Proof.
  intros Hclock Hw sid row Hrow. simpl in *.
  destruct (Hw sid row Hrow) as [Hcreated Hupdated].
  assert (clock (ticks w) <= clock (S (ticks w))) by (apply Hclock; lia).
  lia.
Qed.

Lemma session_times_store_call c w :
  clock_monotone -> session_times_ordered w ->
  session_times_ordered (store_call c w).2.
Proof.
  intros Hclock Hw.
  assert (H1 : clock (ticks w) <= clock (S (ticks w))) by (apply Hclock; lia).
  assert (H3 : clock (S (ticks w)) <= clock (S (S (S (ticks w)))))
    by (apply Hclock; lia).
  destruct c as [sid md|sid role content md|sid|days]; [simpl..|cbv beta iota].
  - unfold bind. destruct (sessions (db w) !! sid) as [old|] eqn:Hold.
    + rewrite (create_session_present _ _ _ _ Hold). by apply session_times_tick.
    + rewrite (create_session_absent _ _ _ Hold).
      intros other row. simpl. rewrite lookup_insert.
      case_decide as Hsid.
      * intros [= <-]. simpl. lia.
      * intros Hrow. destruct (Hw other row Hrow). lia.
  - rewrite add_message_eq. intros other row. simpl.
    rewrite lookup_alter. unfold ensured.
    case_decide as Hsid.
    + subst other. destruct (sessions (db w) !! sid) as [old|] eqn:Hold.
      * rewrite Hold. intros [= <-]. simpl. destruct (Hw sid old Hold). lia.
      * rewrite lookup_insert_eq. intros [= <-]. simpl. lia.
    + destruct (sessions (db w) !! sid) as [old|] eqn:Hold.
      * intros Hrow. destruct (Hw other row Hrow). lia.
      * rewrite lookup_insert_ne by done.
        intros Hrow. destruct (Hw other row Hrow). lia.
  - unfold bind. rewrite delete_session_eq.
    destruct (sessions (db w) !! sid) as [old|] eqn:Hold; [|done].
    intros other row. simpl. rewrite lookup_delete.
    case_decide; [done|]. apply Hw.
  - destruct (clear_old_sessions_leaves days w) as [->|[cutoff ->]]; [done|].
    intros other row. simpl.
    rewrite map_lookup_filter_Some. intros [Hrow _].
    destruct (Hw other row Hrow). lia.
Qed.

Lemma chronological_store_call c w :
  clock_monotone -> chronological w -> chronological (store_call c w).2.
Proof.
  intros Hclock Hw.
  destruct c as [sid md|sid role content md|sid|days]; [simpl..|cbv beta iota].
  - unfold bind.
    pose proof (chronological_create_session sid md w Hclock Hw) as Hc.
    by destruct (create_session sid md w) as [[b|e] w1].
  - by apply chronological_add_message.
  - unfold bind.
    pose proof (chronological_delete_session sid w Hw) as Hc.
    by destruct (delete_session sid w) as [[b|e] w1].
  - destruct (clear_old_sessions_leaves days w) as [->|[cutoff ->]]; [done|].
    by apply (chronological_tick _ Hclock) in Hw.
Qed.

(** X12.  With a clock that never goes back, every history of the store
    keeps the times in order: no session has an [updated_at] before its
    [created_at] or after the clock, and the messages lie in the table in
    the order of their timestamps. *)
Theorem store_times_ordered (cs : list StoreCall) (w : World) :
  clock_monotone -> session_times_ordered w -> chronological w ->
  session_times_ordered (store_calls cs w).2 /\
  chronological (store_calls cs w).2.
Proof.
  intros Hclock. revert w.
  induction cs as [|c cs IH]; intros w Hsessions Hmessages; [done|].
  rewrite store_calls_cons. apply IH.
  - by apply session_times_store_call.
  - by apply chronological_store_call.
Qed.

(** ** The info of a session *)

Lemma add_messages_keeps_session session_id calls w row :
  sessions (db w) !! session_id = Some row ->
  exists row',
    sessions (db (add_messages calls w).2) !! session_id = Some row' /\
    s_created_at row' = s_created_at row /\
    s_metadata row' = s_metadata row.
Proof.
  revert w row. induction calls as [|c calls IH]; intros w row Hrow.
  - by exists row.
  - rewrite add_messages_cons, add_message_eq.
    set (w1 := appended _ _ _ _ w).
    assert (Hw1 : exists row1, sessions (db w1) !! session_id = Some row1 /\
                    s_created_at row1 = s_created_at row /\
                    s_metadata row1 = s_metadata row).
    { subst w1. simpl. rewrite lookup_alter. unfold ensured.
      case_decide as Hsid.
      - rewrite Hsid, Hrow. simpl. rewrite Hrow. simpl. by eexists.
      - destruct (sessions (db w) !! ap_session_id c).
        + rewrite Hrow. by eexists.
        + rewrite lookup_insert_ne by done. rewrite Hrow. by eexists. }
    destruct Hw1 as (row1 & Hrow1 & Hcreated & Hmeta).
    destruct (IH w1 row1 Hrow1) as (row' & Hrow' & Hcreated' & Hmeta').
    exists row'. split; [done|]. split; congruence.
Qed.

(** X13.  What is given to [create_session] comes back from
    [get_session_info]: after a session is created under a new id and any
    messages are appended, to it or to others, its info carries the id, the
    metadata it was created with, its time of creation, and as
    [message_count] the messages stored under the id before plus those
    appended to it. *)
Theorem get_session_info_round_trip (session_id : string) (metadata : option Dict)
    (calls : list Append) (w : World) :
  sessions (db w) !! session_id = None ->
  let created := (create_session session_id metadata w).2 in
  let final := (add_messages calls created).2 in
  exists info,
    get_session_info session_id final = (Returns (Some info), final) /\
    i_session_id info = session_id /\
    i_metadata info = or_empty metadata /\
    i_created_at info = clock (ticks w) /\
    i_message_count info =
      sql_count_messages session_id (db w) +
      Z.of_nat (length (filter (fun c => ap_session_id c = session_id) calls)).
Proof.
  intros Hnew created final.
  assert (Hcreated : sessions (db created) !! session_id =
            Some (fresh_session (clock (ticks w)) (or_empty metadata)) /\
            messages (db created) = messages (db w)).
  { subst created. rewrite (create_session_absent _ _ _ Hnew). simpl.
    by rewrite lookup_insert_eq. }
  destruct Hcreated as [Hrow Hmessages].
  destruct (add_messages_keeps_session session_id calls created _ Hrow)
    as (row' & Hrow' & Hcreated_at & Hmeta).
  fold final in Hrow'.
  eexists. split.
  { unfold get_session_info, bind, get_world; simpl. rewrite Hrow'. reflexivity. }
  simpl. split; [done|]. split; [done|]. split; [done|].
  unfold sql_count_messages.
  pose proof (f_equal length (add_messages_turns session_id calls created)) as Hlen.
  fold final in Hlen.
  rewrite length_app, !length_fmap, Hmessages in Hlen. lia.
Qed.

(** ** The chat handler, every outcome *)

Lemma messages_resolved session_id w :
  messages (db (resolved session_id w)) = messages (db w).
Proof. unfold resolved. by destruct (sessions (db w) !! session_id). Qed.

Lemma messages_user_turn_saved request w :
  exists user_row,
    messages (db (user_turn_saved request w)) = messages (db w) ++ [user_row] /\
    m_session_id user_row = req_session_id request /\
    m_role user_row = "user" /\
    m_content user_row = req_message request.
Proof.
  unfold user_turn_saved.
  destruct (db_agent_installed (req_temperature request) (req_max_tokens request)
              (appended (req_session_id request) "user" (req_message request) None
                 (resolved (req_session_id request) w))) as [-> _].
  simpl. rewrite messages_resolved. by eexists.
Qed.

Lemma chat_history_of_eq request w :
  chat_history_of request w =
    message_dict <$> sql_select_messages (req_session_id request) None (db w).
Proof.
  unfold chat_history_of, sql_select_messages. by rewrite messages_resolved.
Qed.

(** X14.  Whatever the agent does, [POST /chat] answers 200 and appends
    two rows to [messages], both under the session of the request: the
    message of the user, then the reply of the assistant with the text of
    the response and its tool names as metadata.  The history handed to the
    agent is what [get_messages] returned before the request: it does not
    hold the message of the user. *)
Theorem chat_appends_one_turn (request : ChatRequest) (w : World) :
  exists response user_row assistant_row,
    (chat request w).1 = Returns response /\
    http_status (chat request w).1 = 200 /\
    resp_session_id response = req_session_id request /\
    messages (db (chat request w).2) = messages (db w) ++ [user_row; assistant_row] /\
    m_session_id user_row = req_session_id request /\
    row_turn user_row = ("user", req_message request) /\
    m_session_id assistant_row = req_session_id request /\
    row_turn assistant_row = ("assistant", resp_response response) /\
    m_metadata assistant_row =
      [("tools_used", JList (JStr <$> resp_tools_used response))] /\
    response =
      (let result := run (chat_agent_of request w) (req_message request)
                       (message_dict <$>
                          sql_select_messages (req_session_id request) None (db w)) in
       {| resp_response := output result;
          resp_session_id := req_session_id request;
          resp_tools_used := tools_used result;
          resp_tokens_used := None;
          resp_finish_reason := None |}).
Proof.
  rewrite chat_eq. cbn zeta. cbn [fst snd].
  destruct (messages_user_turn_saved request w)
    as (user_row & Hsaved & Hsid & Hrole & Hcontent).
  eexists _, user_row, _.
  split; [reflexivity|]. split; [reflexivity|]. split; [reflexivity|].
  split.
  { cbn [appended db messages]. rewrite Hsaved, <- app_assoc. reflexivity. }
  split; [done|]. split; [unfold row_turn; congruence|].
  split; [reflexivity|]. split; [reflexivity|]. split; [reflexivity|].
  by rewrite chat_history_of_eq.
Qed.

(** ** What the agent is shown *)

Lemma format_chat_history_known rows :
  Forall (fun m => m_role m = "user" \/ m_role m = "assistant") rows ->
  format_chat_history (message_dict <$> rows) = lc_message <$> rows.
Proof.
  induction 1 as [|m rows Hm _ IH]; [done|].
  cbn [fmap list_fmap format_chat_history message_dict role content].
  fold (fmap (M:=list) message_dict rows). fold (fmap (M:=list) lc_message rows).
  rewrite IH. unfold lc_message.
  destruct Hm as [-> | ->]; reflexivity.
Qed.

Lemma serve_chat_stream_world request patience w :
  (serve_chat_stream request patience w).2 = user_turn_saved request w \/
  (serve_chat_stream request patience w).2 =
    appended (req_session_id request) "assistant" (join (produced_for request w).1)
      None (user_turn_saved request w).
Proof.
  rewrite serve_chat_stream_eq.
  destruct (le_lt_dec patience (length (produced_for request w).1)) as [Hshort|Hlong].
  - left. by rewrite stream_response_leaves.
  - destruct (produced_for request w).2 as [|e].
    + right. by rewrite stream_response_completes.
    + left. by rewrite stream_response_cancelled.
Qed.

Lemma known_roles_appended session_id role content metadata w :
  (role = "user" \/ role = "assistant") ->
  known_roles (db w) ->
  known_roles (db (appended session_id role content metadata w)).
Proof.
  intros Hrole Hw. unfold known_roles in *. simpl.
  apply Forall_app; split; [done|].
  constructor; [exact Hrole|constructor].
Qed.

Lemma known_roles_user_turn_saved request w :
  known_roles (db w) -> known_roles (db (user_turn_saved request w)).
Proof.
  intros Hw. unfold known_roles.
  destruct (messages_user_turn_saved request w) as (row & -> & _ & Hrole & _).
  apply Forall_app; split; [done|].
  constructor; [by left|constructor].
Qed.

(** X15.  The two chat handlers store turns of the user and of the
    assistant only; and when the table holds nothing else, the agent is
    shown every stored message of the session, oldest first, each turn of
    the user as a [HumanMessage] and each turn of the assistant as an
    [AIMessage]: [format_chat_history] drops nothing. *)
Theorem chat_history_complete (request : ChatRequest) (w : World) :
  known_roles (db w) ->
  known_roles (db (chat request w).2) /\
  (forall patience, known_roles (db (serve_chat_stream request patience w).2)) /\
  format_chat_history (chat_history_of request w) =
    lc_message <$> sql_select_messages (req_session_id request) None (db w).
Proof.
  intros Hw.
  pose proof (known_roles_user_turn_saved request w Hw) as Hsaved.
  split; [|split].
  - rewrite chat_eq. simpl.
    apply known_roles_appended; [by right|done].
  - intros patience.
    destruct (serve_chat_stream_world request patience w) as [-> | ->]; [done|].
    apply known_roles_appended; [by right|done].
  - rewrite chat_history_of_eq. apply format_chat_history_known.
    unfold sql_select_messages. rewrite order_by_timestamp_perm.
    apply Forall_forall. intros m Hm.
    apply list_elem_of_filter in Hm as [_ Hm].
    unfold known_roles in Hw. rewrite Forall_forall in Hw. by apply Hw.
Qed.

(** ** The key check *)

(** X16.  [verify_api_key] never changes anything and either returns
    [True] or raises the 401 error; it raises exactly when authentication
    is enabled, a key that is not the empty string is configured, and the
    header is absent or differs from it.  So with authentication enabled and
    no key configured every request passes. *)
Theorem verify_api_key_rejects_iff (x_api_key : option string) (w : World) :
  let rejected := (Raises (HTTPException 401 "Invalid API key"), w) in
  (verify_api_key x_api_key w = rejected \/
   verify_api_key x_api_key w = (Returns true, w)) /\
  (verify_api_key x_api_key w = rejected <->
   settings_enable_auth = true /\
   exists key, settings_api_key = Some key /\ key <> "" /\ x_api_key <> Some key).
Proof.
  unfold verify_api_key.
  destruct settings_enable_auth; simpl.
  - destruct settings_api_key as [[|c key]|]; simpl.
    + split; [by right|]. split; [done|]. intros [_ (key & [= <-] & Hkey & _)]. done.
    + case_bool_decide as Hx; simpl.
      * split; [by left|]. split; [|done]. intros _. split; [done|].
        exists (String c key). done.
      * split; [by right|]. split; [done|].
        intros [_ (key' & [= <-] & _ & Hne)]. done.
    + split; [by right|]. split; [done|]. intros [_ (key & [=] & _)].
  - split; [by right|]. split; [done|]. intros [[=] _].
Qed.

(** ** The calculator *)

Lemma sanitize_app (a b : PyStr) : sanitize (a ++ b) = sanitize a ++ sanitize b.
Proof. apply filter_app. Qed.

Lemma sanitize_allowed (expression : PyStr) :
  Forall (fun c => is_digit c || is_operator c || is_space c = true)
    (sanitize expression).
Proof.
  apply Forall_forall. intros c Hc.
  by apply list_elem_of_filter in Hc as [Hc _].
Qed.

(** X17.  The text that the calculator evaluates holds only digits, the
    characters [+ - * / ( ) .] and whitespace, in the order of the input:
    no letter and no underscore reaches [eval], so no name does.  Cleaning
    a cleaned text changes nothing, and two expressions that differ only in
    characters outside that set get the same result whenever the
    evaluation does not fail. *)
Theorem calculator_ignores_other_characters (expression : PyStr) :
  Forall (fun c => is_digit c || is_operator c || is_space c = true)
    (sanitize expression) /\
  (forall c, c ∈ sanitize expression ->
     ~ (65 <= c <= 90)%N /\ ~ (97 <= c <= 122)%N /\ c <> 95%N) /\
  sanitize (sanitize expression) = sanitize expression /\
  sanitize expression `sublist_of` expression /\
  (forall other result,
     sanitize other = sanitize expression ->
     python_eval (sanitize expression) = inr result ->
     CalculatorTool_run expression = result /\ CalculatorTool_run other = result).
Proof.
  split; [apply sanitize_allowed|]. split; [|split; [|split]].
  - intros c Hc.
    pose proof (sanitize_allowed expression) as Hall.
    rewrite Forall_forall in Hall. specialize (Hall c Hc).
    unfold is_digit, is_operator, is_space in Hall.
    repeat split; intros Hletter.
    + apply orb_prop in Hall as [Hall|Hall]; [apply orb_prop in Hall as [Hall|Hall]|].
      * apply andb_prop in Hall as [H1 H2].
        apply N.leb_le in H1, H2. lia.
      * apply bool_decide_eq_true in Hall.
        repeat (apply elem_of_cons in Hall as [->|Hall]; [lia|]).
        by apply elem_of_nil in Hall.
      * repeat (apply orb_prop in Hall as [Hall|Hall]);
          try (apply andb_prop in Hall as [H1 H2]; apply N.leb_le in H1, H2; lia).
        apply bool_decide_eq_true in Hall.
        repeat (apply elem_of_cons in Hall as [->|Hall]; [lia|]).
        by apply elem_of_nil in Hall.
    + apply orb_prop in Hall as [Hall|Hall]; [apply orb_prop in Hall as [Hall|Hall]|].
      * apply andb_prop in Hall as [H1 H2].
        apply N.leb_le in H1, H2. lia.
      * apply bool_decide_eq_true in Hall.
        repeat (apply elem_of_cons in Hall as [->|Hall]; [lia|]).
        by apply elem_of_nil in Hall.
      * repeat (apply orb_prop in Hall as [Hall|Hall]);
          try (apply andb_prop in Hall as [H1 H2]; apply N.leb_le in H1, H2; lia).
        apply bool_decide_eq_true in Hall.
        repeat (apply elem_of_cons in Hall as [->|Hall]; [lia|]).
        by apply elem_of_nil in Hall.
    + subst c. vm_compute in Hall. discriminate.
  - unfold sanitize, PyStr in *. induction expression as [|c l IH]; [done|].
    rewrite filter_cons. case_decide as Hc; [|exact IH].
    rewrite filter_cons_True by exact Hc. by rewrite IH.
  - apply sublist_filter.
  - intros other result Hsame Heval.
    unfold CalculatorTool_run. by rewrite Hsame, Heval.
Qed.

(** ** The first call of get_agent *)

(** X18.  On a process that has no agent yet, [get_agent] builds one,
    stores it in the global and leaves the database alone.  The agent has
    the temperature and the token limit of the call when they are given and
    not zero, and those of the settings otherwise: an override of 0 counts
    as no override. *)
Theorem get_agent_first_call (temperature : option Q) (max_tokens : option Z)
    (w : World) :
  agent w = None ->
  let r := get_agent temperature max_tokens w in
  exists a,
    r.1 = Returns a /\
    agent r.2 = Some a /\
    db r.2 = db w /\
    a_instance a = constructed w /\
    constructed r.2 = S (constructed w) /\
    a_temperature a =
      match temperature with
      | Some t => if Qeq_bool t 0 then settings_openai_temperature else t
      | None => settings_openai_temperature
      end /\
    a_max_tokens a =
      match max_tokens with
      | Some n => if n =? 0 then settings_openai_max_tokens else n
      | None => settings_openai_max_tokens
      end /\
    (Qeq_bool settings_openai_temperature 0 = false ->
     Qeq_bool (a_temperature a) 0 = false) /\
    (settings_openai_max_tokens <> 0 -> a_max_tokens a <> 0).
Proof.
  intros Hnone r. subst r. rewrite get_agent_eq.
  unfold agent_installed, the_agent. rewrite Hnone. simpl.
  eexists. do 7 (split; [reflexivity|]). split.
  - intros Hdefault. unfold float_or.
    destruct temperature as [t|]; [|done].
    by destruct (Qeq_bool t 0) eqn:Ht.
  - intros Hdefault. unfold int_or.
    destruct max_tokens as [n|]; [|done].
    destruct (Z.eqb_spec n 0); done.
Qed.

End Backend.

(** * The claims on concrete inputs *)

Lemma slow_clock_monotone : clock_monotone slow_clock.
Proof.
  intros i j Hij. unfold slow_clock.
  apply Nat2Z.inj_le, Nat.Div0.div_le_mono, Hij.
Qed.

(** C1.  [delete_session] is documented to delete a session and all its
    messages, and the schema declares the cascade; on a session with one
    message it returns [True], the session is not found any more, and
    [get_messages] still returns the message. *)
Example delete_session_leaves_messages_visible :
  let w := (add_message slow_clock "s1" "user" "Hello" None
              (create_session slow_clock "s1" None initial_world).2).2 in
  let r := delete_session "s1" w in
  r.1 = Returns true /\
  (get_session_info "s1" r.2).1 = Returns None /\
  (get_messages "s1" None r.2).1 =
    Returns [{| role := "user"; content := "Hello"; timestamp := 0 |}].
Proof. vm_compute. repeat split. Qed.

Lemma get_messages_append_order_witness :
  ids_increasing (db initial_world) /\
  clock_monotone slow_clock /\
  chronological slow_clock initial_world /\
  (m_timestamp <$> sql_select_messages "s1" None
                     (db (add_messages slow_clock hello_calls initial_world).2)) =
    [0; 0; 1] /\
  (row_turn <$> sql_select_messages "s1" None
                  (db (add_messages slow_clock hello_calls initial_world).2)) =
    [("user", "Hello"); ("assistant", "Hi there!"); ("user", "Bye")].
Proof.
  split; [exact ids_increasing_empty|].
  split; [exact slow_clock_monotone|].
  split; [exact (chronological_initial slow_clock)|].
  split; [reflexivity|].
  exact (proj2 (proj2 (proj2 (proj2
    (get_messages_append_order slow_clock hello_calls "s1" initial_world
       ids_increasing_empty))))
    slow_clock_monotone (chronological_initial slow_clock)).
Defined.

(** C2 as the claim has it fails.  The clock is set back between two
    appends to a session: the second message carries the earlier timestamp
    and [get_messages] returns it first. *)
Lemma get_messages_clock_set_back :
  let w := (add_messages set_back_clock two_appends initial_world).2 in
  (add_messages set_back_clock two_appends initial_world).1 = Returns tt /\
  (get_messages "s1" None w).1 =
    Returns [{| role := "user"; content := "second"; timestamp := 0 |};
             {| role := "user"; content := "first"; timestamp := 3600 |}] /\
  row_turn <$> sql_select_messages "s1" None (db w) <> call_turn <$> two_appends.
Proof.
  vm_compute. repeat split. discriminate.
Qed.

Lemma get_messages_limit_earliest_witness :
  0 < 2 /\ 2 < 2 ^ 63 /\
  get_messages "s1" (Some 2) (add_messages slow_clock hello_calls initial_world).2 =
    (Returns [{| role := "user"; content := "Hello"; timestamp := 0 |};
              {| role := "assistant"; content := "Hi there!"; timestamp := 0 |}],
     (add_messages slow_clock hello_calls initial_world).2).
Proof.
  assert (Hpos : 0 < 2) by lia.
  assert (Hfits : 2 < 2 ^ 63) by lia.
  split; [exact Hpos|]. split; [exact Hfits|].
  exact (proj1 (proj1 (proj2 (proj2
    (get_messages_limit_earliest "s1" 2
       (add_messages slow_clock hello_calls initial_world).2 Hpos))) Hfits)).
Defined.

(** C8 as the claim has it fails.  The limit 2^63 is positive and at least
    the number of messages of the session; [get_messages] raises
    [OverflowError] and returns no message of its history of three. *)
Lemma get_messages_limit_too_large :
  let w := (add_messages slow_clock hello_calls initial_world).2 in
  0 < 2 ^ 63 /\
  Z.of_nat (length (sql_select_messages "s1" None (db w))) <= 2 ^ 63 /\
  get_messages "s1" (Some (2 ^ 63)) w = (Raises int_too_large, w) /\
  (get_messages "s1" None w).1 =
    Returns [{| role := "user"; content := "Hello"; timestamp := 0 |};
             {| role := "assistant"; content := "Hi there!"; timestamp := 0 |};
             {| role := "user"; content := "Bye"; timestamp := 1 |}].
Proof.
  vm_compute. repeat split; discriminate.
Qed.

(** C3 as the claim has it fails.  The producer yields "Hel" and raises
    [Exception("boom")] before it is done; the client stays; an assistant
    message "HelError: boom" is appended to the session. *)
Lemma chat_stream_producer_fault_is_persisted :
  let r := serve_chat_stream slow_clock (7 # 10) 1000 faulty_stream
             hello_request 5 initial_world in
  s_end (faulty_stream warm_agent "Hello" []) = RaisesException "boom" /\
  r.1 = Returns ([sse_frame "Hel"; sse_frame "Error: boom"; done_frame], true) /\
  assistant_contents "s1" (db r.2) = ["HelError: boom"] /\
  ~ no_assistant_message_appended "s1" (db initial_world) (db r.2).
Proof.
  vm_compute. repeat split. discriminate.
Qed.

Lemma chat_stream_cancelled_drops_turn_witness :
  (produced_for slow_clock (7 # 10) 1000 cancelled_stream hello_request
     initial_world).2 = GenRaises CancelledError /\
  (serve_chat_stream slow_clock (7 # 10) 1000 cancelled_stream hello_request 5
     initial_world).2 =
    user_turn_saved slow_clock (7 # 10) 1000 hello_request initial_world.
Proof.
  split; [reflexivity|].
  exact (proj1
    (chat_stream_cancelled_drops_turn slow_clock (7 # 10) 1000 cancelled_stream
       hello_request initial_world) 5%nat (or_intror eq_refl)).
Defined.

Lemma chat_stream_persists_on_completion_witness :
  (produced_for slow_clock (7 # 10) 1000 complete_stream hello_request
     initial_world).2 = GenReturns /\
  serve_chat_stream slow_clock (7 # 10) 1000 complete_stream hello_request 3
    initial_world =
    (Returns ([sse_frame "Hel"; sse_frame "lo"; done_frame], false),
     appended slow_clock "s1" "assistant" "Hello" None
       (user_turn_saved slow_clock (7 # 10) 1000 hello_request initial_world)).
Proof.
  split; [reflexivity|].
  assert (Hstays : (2 < 3)%nat) by lia.
  exact (proj1 (proj2
    (chat_stream_persists_on_completion slow_clock (7 # 10) 1000 complete_stream
       hello_request initial_world eq_refl)) 3%nat Hstays).
Defined.

Lemma chat_agent_failure_is_apology_witness :
  failing_invoke
    (chat_agent_of (7 # 10) 1000 hello_request initial_world) "Hello"
    (format_chat_history (chat_history_of slow_clock hello_request initial_world)) =
    inl "boom" /\
  (chat slow_clock (7 # 10) 1000 failing_invoke hello_request initial_world).1 =
    Returns {| resp_response := "I encountered an error: boom. Please try again.";
               resp_session_id := "s1";
               resp_tools_used := [];
               resp_tokens_used := None;
               resp_finish_reason := None |}.
Proof.
  split; [reflexivity|].
  exact (proj1
    (chat_agent_failure_is_apology slow_clock (7 # 10) 1000 failing_invoke
       hello_request "boom" initial_world eq_refl)).
Defined.

Lemma get_agent_ignores_overrides_witness :
  agent warm_world = Some warm_agent /\
  get_agent (7 # 10) 1000 (Some (2 # 1)) (Some 5) warm_world =
    (Returns warm_agent, warm_world).
Proof.
  split; [reflexivity|].
  exact (proj1
    (get_agent_ignores_overrides slow_clock (7 # 10) 1000 failing_invoke
       complete_stream warm_agent warm_world eq_refl) (Some (2 # 1)) (Some 5)).
Defined.

(** * The further properties on concrete inputs *)

Lemma daily_clock_monotone : clock_monotone daily_clock.
Proof. intros i j Hij. unfold daily_clock. lia. Qed.

Lemma key_order_perm (limit offset : Z) (ss : gmap string SessionRow) :
  key_order limit offset ss ≡ₚ map_to_list ss.
Proof. reflexivity. Qed.

Lemma list_sessions_newest_first_witness :
  (forall limit offset ss, key_order limit offset ss ≡ₚ map_to_list ss) /\
  exists page,
    list_sessions key_order 2 0 (add_messages daily_clock three_appends initial_world).2 =
      (Returns page, (add_messages daily_clock three_appends initial_world).2) /\
    StronglySorted newest_first page /\
    NoDup (i_session_id <$> page).
Proof.
  split; [exact key_order_perm|].
  destruct (list_sessions_newest_first key_order key_order_perm 2 0
              (add_messages daily_clock three_appends initial_world).2)
    as (page & Heq & Hsorted & Hnodup & _).
  exists page. split; [exact Heq|]. split; [exact Hsorted|exact Hnodup].
Defined.


Lemma api_list_sessions_total_witness :
  0 <= 2 /\ 0 <= 1 /\
  exists response,
    api_list_sessions key_order 2 1 (add_messages daily_clock three_appends initial_world).2 =
      (Returns response, (add_messages daily_clock three_appends initial_world).2) /\
    slr_total response = 2.
Proof.
  assert (H2 : 0 <= 2) by lia. assert (H1 : 0 <= 1) by lia.
  destruct (api_list_sessions_total key_order key_order_perm 2 1
              (add_messages daily_clock three_appends initial_world).2)
    as (response & Heq & _ & Htotal).
  split; [exact H2|]. split; [exact H1|].
  exists response. split; [exact Heq|exact (Htotal H2 H1)].
Defined.

Lemma clear_old_sessions_sweeps_witness :
  0 <= 3 /\ 3 < 2 ^ 63 /\
  (clear_old_sessions daily_clock 3
     (add_messages daily_clock three_appends initial_world).2).1 = Returns 2 /\
  messages (db (clear_old_sessions daily_clock 3
                  (add_messages daily_clock three_appends initial_world).2).2) =
    messages (db (add_messages daily_clock three_appends initial_world).2).
Proof.
  assert (H3 : 0 <= 3) by lia.
  assert (Hfits : 3 < 2 ^ 63) by lia.
  split; [exact H3|]. split; [exact Hfits|].
  destruct (clear_old_sessions_sweeps daily_clock 3
              (add_messages daily_clock three_appends initial_world).2 H3 Hfits)
    as (_ & Hcount & Hmessages & _).
  split; [exact Hcount|exact Hmessages].
Defined.

Lemma clear_old_sessions_negative_days_witness :
  - 2 ^ 63 <= -5 < 0 /\
  (clear_old_sessions daily_clock (-5)
     (add_messages daily_clock three_appends initial_world).2).1 = Returns 0.
Proof.
  assert (H5 : - 2 ^ 63 <= -5 < 0) by lia.
  split; [exact H5|].
  exact (proj1 (proj1 (clear_old_sessions_negative_days daily_clock (-5)
                  (add_messages daily_clock three_appends initial_world).2) H5)).
Defined.

Lemma delete_then_create_restores_messages_witness :
  is_Some (sessions (db (add_messages daily_clock three_appends initial_world).2) !! "a") /\
  (get_session_info "a"
     (create_session daily_clock "a" None
        (delete_session "a"
           (add_messages daily_clock three_appends initial_world).2).2).2).1 =
    Returns (Some {| i_session_id := "a"; i_created_at := 86400 * 9;
                     i_updated_at := 86400 * 9; i_metadata := [];
                     i_message_count := 1 |}).
Proof.
  assert (Hthere : is_Some (sessions
            (db (add_messages daily_clock three_appends initial_world).2) !! "a")).
  { eexists. reflexivity. }
  split; [exact Hthere|].
  exact (proj2 (proj2
    (delete_then_create_restores_messages daily_clock "a" None
       (add_messages daily_clock three_appends initial_world).2 Hthere))).
Defined.

Lemma other_session_untouched_witness :
  "a" <> "b" /\
  (get_session_info "b"
     (delete_session "a" (add_messages daily_clock three_appends initial_world).2).2).1 =
  (get_session_info "b" (add_messages daily_clock three_appends initial_world).2).1.
Proof.
  assert (Hne : "a" <> "b") by discriminate.
  split; [exact Hne|].
  exact (proj2
    (other_session_untouched daily_clock "a" "b" "user" "x" None
       (add_messages daily_clock three_appends initial_world).2 Hne
       (delete_session "a" (add_messages daily_clock three_appends initial_world).2).2
       (or_intror (or_intror eq_refl)))).
Defined.

Lemma messages_owned_without_removal_witness :
  Forall removes_nothing some_history /\
  owned (db initial_world) /\
  owned (db (store_calls daily_clock some_history initial_world).2).
Proof.
  assert (Hcalls : Forall removes_nothing some_history).
  { repeat constructor. }
  assert (Hstart : owned (db initial_world)) by constructor.
  split; [exact Hcalls|]. split; [exact Hstart|].
  exact (messages_owned_without_removal daily_clock some_history initial_world
           Hcalls Hstart).
Defined.

Lemma store_times_ordered_witness :
  clock_monotone daily_clock /\
  session_times_ordered daily_clock
    (store_calls daily_clock some_history initial_world).2 /\
  chronological daily_clock (store_calls daily_clock some_history initial_world).2.
Proof.
  split; [exact daily_clock_monotone|].
  exact (store_times_ordered daily_clock some_history initial_world
           daily_clock_monotone (session_times_initial daily_clock)
           (chronological_initial daily_clock)).
Defined.

Lemma get_session_info_round_trip_witness :
  sessions (db initial_world) !! "a" = None /\
  exists info,
    (get_session_info "a"
       (add_messages daily_clock three_appends
          (create_session daily_clock "a" (Some [("k", JNull)]) initial_world).2).2).1 =
      Returns (Some info) /\
    i_metadata info = [("k", JNull)] /\
    i_message_count info = 1.
Proof.
  assert (Hnew : sessions (db initial_world) !! "a" = None) by reflexivity.
  split; [exact Hnew|].
  destruct (get_session_info_round_trip daily_clock "a" (Some [("k", JNull)])
              three_appends initial_world Hnew)
    as (info & Heq & _ & Hmeta & _ & Hcount).
  exists info. split; [exact (f_equal fst Heq)|]. split; [exact Hmeta|exact Hcount].
Defined.

Lemma chat_history_complete_witness :
  known_roles (db initial_world) /\
  known_roles
    (db (chat slow_clock (7 # 10) 1000 failing_invoke hello_request initial_world).2).
Proof.
  assert (Hstart : known_roles (db initial_world)) by constructor.
  split; [exact Hstart|].
  exact (proj1
    (chat_history_complete slow_clock (7 # 10) 1000 failing_invoke complete_stream
       hello_request initial_world Hstart)).
Defined.

Lemma get_agent_first_call_witness :
  agent initial_world = None /\
  exists a,
    (get_agent (7 # 10) 1000 (Some (0 # 1)) (Some 0) initial_world).1 = Returns a /\
    a_temperature a = 7 # 10 /\
    a_max_tokens a = 1000.
Proof.
  assert (Hnone : agent initial_world = None) by reflexivity.
  split; [exact Hnone|].
  destruct (get_agent_first_call (7 # 10) 1000 (Some (0 # 1)) (Some 0)
              initial_world Hnone)
    as (a & Heq & _ & _ & _ & _ & Htemperature & Htokens & _).
  exists a. split; [exact Heq|]. split; [exact Htemperature|exact Htokens].
Defined.

(** The calculator on the example of its own description: the name of the
    function is dropped before the text is evaluated. *)
Example sanitize_drops_names :
  sanitize (codepoints "sqrt(16)") = codepoints "(16)" /\
  sanitize (codepoints "2 ** 3") = codepoints "2 ** 3" /\
  CalculatorTool_run failing_eval (codepoints "abs") =
    codepoints "Error calculating 'abs': invalid syntax".
Proof. repeat split. Qed.

(** A chat request, then the listing and the count of its session. *)
Example chat_then_get_session :
  let w := (chat slow_clock (7 # 10) 1000 failing_invoke hello_request initial_world).2 in
  (api_get_session "s1" w).1 =
    Returns {| sr_session_id := "s1"; sr_created_at := 0; sr_message_count := 2;
               sr_metadata := [] |} /\
  (api_get_session "s2" w).1 = Raises (HTTPException 404 "Session not found").
Proof. vm_compute. split; reflexivity. Qed.
